(** * Delta-cache executor and down-sampling attention of the SD3 boost example

    A shallow embedding of
      examples/stable_diffusion_3_boost/infer/transformer_sd3_cache.py
      examples/stable_diffusion_3_boost/infer/attention_cache.py

    The block stack is embedded over an abstract tensor type: the numeric layers
    (normalisation, attention, feed-forward) are fields of the block, the
    control flow, the slicing, the delta bookkeeping and the [None] handling are
    those of the Python text.  The attention processor and [downsample] are
    embedded on tensor shapes: they reshape, concatenate and split, and the
    properties of interest are about the lengths that come out. *)

From Stdlib Require Import ZArith List Bool Lia.
From Stdlib Require Import PrimFloat Uint63 SpecFloat FloatOps.
From Stdlib Require String.
Import ListNotations.
Open Scope Z_scope.
Set Warnings "-inexact-float".

(* ===================================================================== *)
(** ** Python values that the code relies on *)
(* ===================================================================== *)

Module Py.

(** The exception classes that the modelled lines can raise. *)
Inductive exn : Type :=
| TypeError | AttributeError | IndexError | ValueError
| ZeroDivisionError | OverflowError.

(** A computation either returns or raises. *)
Inductive result (A : Type) : Type :=
| Ok (a : A)
| Raise (e : exn).
Arguments Ok {A} a.
Arguments Raise {A} e.

Definition bind {A B : Type} (m : result A) (k : A -> result B) : result B :=
  match m with
  | Ok a => k a
  | Raise e => Raise e
  end.

Definition raises {A : Type} (m : result A) : Prop :=
  exists e, m = Raise e.

Definition len {A : Type} (l : list A) : Z := Z.of_nat (length l).

(** [a // b] on Python ints (floor division, as [Z.div]). *)
Definition floordiv (a b : Z) : result Z :=
  if b =? 0 then Raise ZeroDivisionError else Ok (a / b).

(** Normalisation of one bound of [l[start:stop]] for a sequence of length [n]. *)
Definition slice_bound (n i : Z) : Z :=
  if i <? 0 then Z.max (i + n) 0 else Z.min i n.

(** [l[start:stop]]. *)
Definition slice {A : Type} (l : list A) (start stop : Z) : list A :=
  let n := len l in
  let lo := slice_bound n start in
  let hi := slice_bound n stop in
  firstn (Z.to_nat (hi - lo)) (skipn (Z.to_nat lo) l).

(** [l[i]] on a list or tuple. *)
Definition getitem {A : Type} (l : list A) (i : Z) : result A :=
  let j := if i <? 0 then i + len l else i in
  if (0 <=? j) && (j <? len l) then
    match nth_error l (Z.to_nat j) with
    | Some a => Ok a
    | None => Raise IndexError
    end
  else Raise IndexError.

(** [x[i]] where [x] may be [None]. *)
Definition subscript {A : Type} (x : option (list A)) (i : Z) : result A :=
  match x with
  | None => Raise TypeError
  | Some l => getitem l i
  end.

(** [float(z)] for an int in the unsigned 63-bit range. *)
Definition float_of_int (z : Z) : float := PrimFloat.of_uint63 (Uint63.of_Z z).

(** [int(f)]: truncation toward zero. *)
Definition int_of_float (f : float) : result Z :=
  match Prim2SF f with
  | S754_zero _ => Ok 0
  | S754_finite s m e =>
      let mag := if 0 <=? e then Z.pos m * 2 ^ e else Z.pos m / 2 ^ (- e) in
      Ok (if s then - mag else mag)
  | S754_infinity _ => Raise OverflowError
  | S754_nan => Raise ValueError
  end.

(** [z / f] with an int on the left and a float on the right. *)
Definition truediv (z : Z) (f : float) : result float :=
  if PrimFloat.eqb f 0%float then Raise ZeroDivisionError
  else Ok (PrimFloat.div (float_of_int z) f).

End Py.
Import Py.

Notation "x <- m ;; k" := (bind m (fun x => k))
  (at level 61, m at next level, right associativity).
Notation "' p <- m ;; k" := (bind m (fun x => match x with p => k end))
  (at level 61, p pattern, m at next level, right associativity).

(* ===================================================================== *)
(** ** Tensors as the block stack sees them *)
(* ===================================================================== *)

(** The arithmetic that transformer_sd3_cache.py performs on tensors.  Each
    binary operator broadcasts and raises on operands that do not fit, hence
    the [result]. *)
Class TensorOps (Tensor : Type) : Type := {
  tadd : Tensor -> Tensor -> result Tensor;        (* a + b *)
  tsub : Tensor -> Tensor -> result Tensor;        (* a - b *)
  tmul : Tensor -> Tensor -> result Tensor;        (* a * b *)
  unsqueeze1 : Tensor -> Tensor;                   (* a.unsqueeze(1), a[:, None] *)
  one_plus : Tensor -> Tensor;                     (* 1 + a *)
  (* _chunked_feed_forward(ff, x, chunk_dim, chunk_size), imported *)
  chunked_feed_forward :
    (Tensor -> result Tensor) -> Tensor -> Z -> Z -> result Tensor
}.

(** [a + b], [a - b] where an operand may be [None]: no operand type defines
    arithmetic with [None], so the interpreter raises [TypeError]. *)
Definition py_add {Tensor} `{TensorOps Tensor} (a b : option Tensor) : result Tensor :=
  match a, b with
  | Some x, Some y => tadd x y
  | _, _ => Raise TypeError
  end.

Definition py_sub {Tensor} `{TensorOps Tensor} (a b : option Tensor) : result Tensor :=
  match a, b with
  | Some x, Some y => tsub x y
  | _, _ => Raise TypeError
  end.

(** [x.copy()]: a fresh tensor with the same contents; on [None] the attribute
    lookup raises. *)
Definition py_copy {Tensor : Type} (x : option Tensor) : result Tensor :=
  match x with
  | Some t => Ok t
  | None => Raise AttributeError
  end.

(* ===================================================================== *)
(** ** class JointTransformerCacheBlock *)
(* ===================================================================== *)

Module JointTransformerCacheBlock.

(** What [AdaLayerNormZero] returns: the normalised input and the four
    modulation tensors (gate_msa, shift_mlp, scale_mlp, gate_mlp). *)
Definition modulated (Tensor : Type) : Type :=
  (Tensor * Tensor * Tensor * Tensor * Tensor)%type.

(** The sub-cells of one block.  They are built by the base class from the
    weights; the block only calls them. *)
Record Cells (Tensor : Type) : Type := {
  norm1 : Tensor -> Tensor -> result (modulated Tensor);
  (* norm1_context is an AdaLayerNormContinuous when context_pre_only ... *)
  norm1_context_continuous : Tensor -> Tensor -> result Tensor;
  (* ... and an AdaLayerNormZero otherwise *)
  norm1_context_zero : Tensor -> Tensor -> result (modulated Tensor);
  attn : Tensor -> Tensor -> result (Tensor * Tensor);
  norm2 : Tensor -> result Tensor;
  ff : Tensor -> result Tensor;
  norm2_context : Tensor -> result Tensor;
  ff_context : Tensor -> result Tensor;
  _chunk_size : option Z;
  _chunk_dim : Z
}.
Arguments norm1 {Tensor}.
Arguments norm1_context_continuous {Tensor}.
Arguments norm1_context_zero {Tensor}.
Arguments attn {Tensor}.
Arguments norm2 {Tensor}.
Arguments ff {Tensor}.
Arguments norm2_context {Tensor}.
Arguments ff_context {Tensor}.
Arguments _chunk_size {Tensor}.
Arguments _chunk_dim {Tensor}.

Record t (Tensor : Type) : Type := init {
  cells : Cells Tensor;
  context_pre_only : bool;
  layer_idx : Z
}.
Arguments init {Tensor}.
Arguments cells {Tensor}.
Arguments context_pre_only {Tensor}.
Arguments layer_idx {Tensor}.

Section Construct.
Context {Tensor : Type} `{TensorOps Tensor}.

(** The two branches on [self._chunk_size]. *)
Definition feed_forward (self : t Tensor) (net : Tensor -> result Tensor)
    (x : Tensor) : result Tensor :=
  match _chunk_size (cells self) with
  | Some chunk_size => chunked_feed_forward net x (_chunk_dim (cells self)) chunk_size
  | None => net x
  end.

(** [construct(self, hidden_states, encoder_hidden_states, temb)].  The
    context stream is [None] once a context-pre-only block has run; a layer
    called on [None] raises. *)
Definition construct (self : t Tensor) (hidden_states : Tensor)
    (encoder_hidden_states : option Tensor) (temb : Tensor)
    : result (option Tensor * Tensor) :=
  let c := cells self in
  '(norm_hidden_states, gate_msa, shift_mlp, scale_mlp, gate_mlp) <-
      norm1 c hidden_states temb ;;
  context <- match encoder_hidden_states with
             | Some e => Ok e
             | None => Raise TypeError
             end ;;
  '(norm_encoder_hidden_states, c_modulation) <-
      (if context_pre_only self then
         n <- norm1_context_continuous c context temb ;;
         Ok (n, None)
       else
         '(n, c_gate_msa, c_shift_mlp, c_scale_mlp, c_gate_mlp) <-
             norm1_context_zero c context temb ;;
         Ok (n, Some (c_gate_msa, c_shift_mlp, c_scale_mlp, c_gate_mlp))) ;;
  (* Attention. *)
  '(attn_output, context_attn_output) <-
      attn c norm_hidden_states norm_encoder_hidden_states ;;
  (* Process attention outputs for the hidden_states. *)
  attn_output <- tmul (unsqueeze1 gate_msa) attn_output ;;
  hidden_states <- tadd hidden_states attn_output ;;
  norm_hidden_states <- norm2 c hidden_states ;;
  scaled <- tmul norm_hidden_states (one_plus (unsqueeze1 scale_mlp)) ;;
  norm_hidden_states <- tadd scaled (unsqueeze1 shift_mlp) ;;
  ff_output <- feed_forward self (ff c) norm_hidden_states ;;
  ff_output <- tmul (unsqueeze1 gate_mlp) ff_output ;;
  hidden_states <- tadd hidden_states ff_output ;;
  (* Process attention outputs for the encoder_hidden_states. *)
  if context_pre_only self then Ok (None, hidden_states)
  else
    match c_modulation with
    | None => Raise AttributeError
    | Some (c_gate_msa, c_shift_mlp, c_scale_mlp, c_gate_mlp) =>
        context_attn_output <- tmul (unsqueeze1 c_gate_msa) context_attn_output ;;
        context <- tadd context context_attn_output ;;
        norm_context <- norm2_context c context ;;
        scaled <- tmul norm_context (one_plus (unsqueeze1 c_scale_mlp)) ;;
        norm_context <- tadd scaled (unsqueeze1 c_shift_mlp) ;;
        context_ff_output <- feed_forward self (ff_context c) norm_context ;;
        gated <- tmul (unsqueeze1 c_gate_mlp) context_ff_output ;;
        context <- tadd context gated ;;
        Ok (Some context, hidden_states)
    end.
End Construct.

End JointTransformerCacheBlock.

(* ===================================================================== *)
(** ** class SD3Transformer2DModelCache *)
(* ===================================================================== *)

Module SD3Transformer2DModelCache.
Import JointTransformerCacheBlock.

(** [range(n)]. *)
Definition range (n : Z) : list Z := map Z.of_nat (seq 0 (Z.to_nat n)).

(** [self.transformer_blocks] as [__init__] builds it: block [i] has layer
    index [i] and is context-pre-only exactly when it is the last one. *)
Definition transformer_blocks {Tensor : Type} (weights : Z -> Cells Tensor)
    (num_layers : Z) : list (t Tensor) :=
  map (fun i => init (weights i) (i =? num_layers - 1) i) (range num_layers).

Section Forward.
Context {Tensor : Type} `{TensorOps Tensor}.

(** The state that range execution threads: (hidden_states,
    encoder_hidden_states). *)
Definition state : Type := (Tensor * option Tensor)%type.

(** Lines 258-261: the controlnet residual after one block. *)
Definition controlnet_residual (n_blocks : Z)
    (block_controlnet_hidden_states : option (list Tensor))
    (block : t Tensor) (index_block : Z) (hidden_states : Tensor)
    : result Tensor :=
  match block_controlnet_hidden_states with
  | Some residuals =>
      if negb (context_pre_only block) then
        interval_control <- floordiv n_blocks (len residuals) ;;
        i <- floordiv index_block interval_control ;;
        r <- getitem residuals i ;;
        tadd hidden_states r
      else Ok hidden_states
  | None => Ok hidden_states
  end.

(** The body of the [for index_block, block in enumerate(...)] loop, from
    counter value [index_block] on. *)
Fixpoint run_blocks (n_blocks : Z)
    (block_controlnet_hidden_states : option (list Tensor)) (temb : Tensor)
    (index_block : Z) (blocks : list (t Tensor))
    (hidden_states : Tensor) (encoder_hidden_states : option Tensor)
    : result state :=
  match blocks with
  | [] => Ok (hidden_states, encoder_hidden_states)
  | block :: rest =>
      '(encoder_hidden_states, hidden_states) <-
          construct block hidden_states encoder_hidden_states temb ;;
      hidden_states <-
          controlnet_residual n_blocks block_controlnet_hidden_states
            block index_block hidden_states ;;
      run_blocks n_blocks block_controlnet_hidden_states temb
        (index_block + 1) rest hidden_states encoder_hidden_states
  end.

(** [forward_blocks_range]: [enumerate] counts from 0 over the slice. *)
Definition forward_blocks_range (transformer_blocks : list (t Tensor))
    (hidden_states : Tensor) (encoder_hidden_states : option Tensor)
    (block_controlnet_hidden_states : option (list Tensor)) (temb : Tensor)
    (start_idx end_idx : Z) : result state :=
  run_blocks (len transformer_blocks) block_controlnet_hidden_states temb 0
    (slice transformer_blocks start_idx end_idx)
    hidden_states encoder_hidden_states.

(** What [forward_blocks] returns:
    ((encoder_hidden_states, hidden_states), delta_cache, delta_cache_hidden). *)
Definition outcome : Type :=
  ((option Tensor * Tensor) * option Tensor * option Tensor)%type.

Definition forward_blocks (transformer_blocks : list (t Tensor))
    (hidden_states : Tensor) (encoder_hidden_states : option Tensor)
    (block_controlnet_hidden_states : option (list Tensor)) (temb : Tensor)
    (use_cache if_skip : bool) (cache_params : option (list Z))
    (delta_cache delta_cache_hidden : option Tensor) : result outcome :=
  let range_ := forward_blocks_range transformer_blocks in
  if negb use_cache then
    '(hidden_states, encoder_hidden_states) <-
        range_ hidden_states encoder_hidden_states
          block_controlnet_hidden_states temb 0 (len transformer_blocks) ;;
    Ok ((encoder_hidden_states, hidden_states), delta_cache, delta_cache_hidden)
  else
    (* infer [0, cache_start) *)
    end_idx <- subscript cache_params 0 ;;
    '(hidden_states, encoder_hidden_states) <-
        range_ hidden_states encoder_hidden_states
          block_controlnet_hidden_states temb 0 end_idx ;;
    (* infer [cache_start, cache_end) *)
    c0 <- subscript cache_params 0 ;;
    c2 <- subscript cache_params 2 ;;
    let cache_end := c0 + c2 in
    hidden_states_before_cache <- py_copy (Some hidden_states) ;;
    encoder_hidden_states_before_cache <- py_copy encoder_hidden_states ;;
    '(hidden_states, encoder_hidden_states, delta_cache, delta_cache_hidden) <-
        (if negb if_skip then
           start_idx <- subscript cache_params 0 ;;
           '(hidden_states, encoder_hidden_states) <-
               range_ hidden_states encoder_hidden_states
                 block_controlnet_hidden_states temb start_idx cache_end ;;
           delta_cache <-
               py_sub (Some hidden_states) (Some hidden_states_before_cache) ;;
           delta_cache_hidden <-
               py_sub encoder_hidden_states
                 (Some encoder_hidden_states_before_cache) ;;
           Ok (hidden_states, encoder_hidden_states,
               Some delta_cache, Some delta_cache_hidden)
         else
           hidden_states <-
               py_add (Some hidden_states_before_cache) delta_cache ;;
           encoder_hidden_states <-
               py_add (Some encoder_hidden_states_before_cache)
                 delta_cache_hidden ;;
           Ok (hidden_states, Some encoder_hidden_states,
               delta_cache, delta_cache_hidden)) ;;
    (* infer [cache_end, len(self.blocks)) *)
    '(hidden_states, encoder_hidden_states) <-
        range_ hidden_states encoder_hidden_states
          block_controlnet_hidden_states temb cache_end
          (len transformer_blocks) ;;
    Ok ((encoder_hidden_states, hidden_states), delta_cache, delta_cache_hidden).

(** The state part of what [forward_blocks] returns. *)
Definition final_state (r : result outcome) : result (option Tensor * Tensor) :=
  '(st, _, _) <- r ;; Ok st.

(** Range execution as section 4.3 of the specification words it: the
    residual of a stage is picked by the stage's index in the whole stack,
    so the counter starts at the first index of the range. *)
Definition forward_range_by_global_index (transformer_blocks : list (t Tensor))
    (hidden_states : Tensor) (encoder_hidden_states : option Tensor)
    (block_controlnet_hidden_states : option (list Tensor)) (temb : Tensor)
    (start_idx end_idx : Z) : result state :=
  run_blocks (len transformer_blocks) block_controlnet_hidden_states temb
    (slice_bound (len transformer_blocks) start_idx)
    (slice transformer_blocks start_idx end_idx)
    hidden_states encoder_hidden_states.

End Forward.

End SD3Transformer2DModelCache.


(* ===================================================================== *)
(** ** A tensor model to run the executor on: integer vectors *)
(* ===================================================================== *)

Module VectorModel.
Import JointTransformerCacheBlock.

(** Element-wise combination of two vectors of the same length; operands of
    different lengths do not broadcast. *)
Fixpoint zip_with (f : Z -> Z -> Z) (a b : list Z) : result (list Z) :=
  match a, b with
  | [], [] => Ok []
  | x :: a', y :: b' => r <- zip_with f a' b' ;; Ok (f x y :: r)
  | _, _ => Raise ValueError
  end.

#[export] Instance vector_ops : TensorOps (list Z) := {
  tadd := zip_with Z.add;
  tsub := zip_with Z.sub;
  tmul := zip_with Z.mul;
  unsqueeze1 := fun a => a;
  one_plus := map (Z.add 1);
  chunked_feed_forward := fun net x _ _ => net x
}.

Definition zeros_like (a : list Z) : list Z := map (fun _ => 0) a.
Definition full_like (a : list Z) (w : Z) : list Z := map (fun _ => w) a.

(** Cells with one weight [w]: the norms pass their input through and gate
    with [temb], attention returns its two inputs, the feed-forward nets
    return the constant [w].  With [temb] all ones a block maps both streams
    [x] to [2 * x + w]. *)
Definition affine_cells (w : Z) : Cells (list Z) := {|
  norm1 := fun x temb => Ok (x, temb, zeros_like temb, zeros_like temb, temb);
  norm1_context_continuous := fun x _ => Ok x;
  norm1_context_zero :=
    fun x temb => Ok (x, temb, zeros_like temb, zeros_like temb, temb);
  attn := fun x c => Ok (x, c);
  norm2 := fun x => Ok x;
  ff := fun x => Ok (full_like x w);
  norm2_context := fun x => Ok x;
  ff_context := fun x => Ok (full_like x w);
  _chunk_size := None;
  _chunk_dim := 0
|}.

(** The stack that [__init__] builds from these cells: block [i] has weight
    [i + 1], the last block is context-pre-only. *)
Definition stack (num_layers : Z) : list (t (list Z)) :=
  SD3Transformer2DModelCache.transformer_blocks (fun i => affine_cells (i + 1))
    num_layers.

(** A stack none of whose blocks is context-pre-only (the base class allows
    it; [__init__] of the cache model does not build it). *)
Definition open_stack (num_layers : Z) : list (t (list Z)) :=
  map (fun i => init (affine_cells (i + 1)) false i)
    (SD3Transformer2DModelCache.range num_layers).

End VectorModel.

(* ===================================================================== *)
(** ** Tensor shapes *)
(* ===================================================================== *)

(** attention_cache.py moves data between layouts; what it does to a tensor's
    shape is independent of the numbers stored.  In this part a tensor is its
    shape, and every operator is its shape rule together with the condition
    under which it raises. *)
Module Shape.

Definition shape : Type := list Z.

Definition numel (s : shape) : Z := fold_right Z.mul 1 s.

Definition ndim (s : shape) : Z := len s.

(** [x.reshape(target)], [x.view(target)]; one entry of [target] may be -1.
    On an empty tensor whose known entries multiply to 0 the -1 entry
    becomes 0. *)
Definition reshape (s : shape) (target : list Z) : result shape :=
  let known := numel (filter (fun d => negb (d =? -1)) target) in
  match count_occ Z.eq_dec target (-1) with
  | 0%nat => if numel s =? known then Ok target else Raise ValueError
  | 1%nat =>
      if known =? 0 then
        if numel s =? 0
        then Ok (map (fun d => if d =? -1 then 0 else d) target)
        else Raise ValueError
      else if numel s mod known =? 0
           then Ok (map (fun d => if d =? -1 then numel s / known else d) target)
           else Raise ValueError
  | _ => Raise ValueError
  end.

Definition axis (s : shape) (i : Z) : result nat :=
  let j := if i <? 0 then i + ndim s else i in
  if (0 <=? j) && (j <? ndim s) then Ok (Z.to_nat j) else Raise ValueError.

Fixpoint all_distinct (l : list nat) : bool :=
  match l with
  | [] => true
  | x :: r => negb (existsb (Nat.eqb x) r) && all_distinct r
  end.

Fixpoint axes (s : shape) (l : list Z) : result (list nat) :=
  match l with
  | [] => Ok []
  | i :: r => a <- axis s i ;; rest <- axes s r ;; Ok (a :: rest)
  end.

(** [x.permute(dims)]. *)
Definition permute (s : shape) (dims : list Z) : result shape :=
  if len dims =? ndim s then
    p <- axes s dims ;;
    if all_distinct p then Ok (map (fun a => nth a s 0) p) else Raise ValueError
  else Raise ValueError.

Fixpoint set_nth (s : shape) (n : nat) (d : Z) : shape :=
  match s, n with
  | [], _ => []
  | _ :: r, O => d :: r
  | x :: r, S n' => x :: set_nth r n' d
  end.

(** [x.swapaxes(i, j)]. *)
Definition swapaxes (s : shape) (i j : Z) : result shape :=
  a <- axis s i ;;
  b <- axis s j ;;
  Ok (set_nth (set_nth s a (nth b s 0)) b (nth a s 0)).

(** [ops.cat([a, b], axis=1)]. *)
Definition cat1 (a b : shape) : result shape :=
  match a, b with
  | a0 :: a1 :: ar, b0 :: b1 :: br =>
      if (a0 =? b0) && (if list_eq_dec Z.eq_dec ar br then true else false)
      then Ok (a0 :: (a1 + b1) :: ar)
      else Raise ValueError
  | _, _ => Raise ValueError
  end.

(** [x[:, :n]]. *)
Definition take1 (s : shape) (n : Z) : result shape :=
  match s with
  | d0 :: d1 :: r => Ok (d0 :: Z.max 0 (slice_bound d1 n) :: r)
  | _ => Raise IndexError
  end.

(** [x[:, n:]]. *)
Definition drop1 (s : shape) (n : Z) : result shape :=
  match s with
  | d0 :: d1 :: r => Ok (d0 :: Z.max 0 (d1 - slice_bound d1 n) :: r)
  | _ => Raise IndexError
  end.

(** The operators of the tensor library that attention_cache.py calls and
    that do not act on the layout alone. *)
Inductive interpolation : Type := Nearest | Bilinear.

Class Kernels : Type := {
  (* ops.interpolate(x, size=(h, w), mode=method) *)
  interpolate : shape -> Z * Z -> interpolation -> result shape;
  (* FlashAttentionScore(1, scale_value)(q, k, v, None, None, None, mask)[3] *)
  flash_attention_score : shape -> shape -> shape -> option shape -> result shape
}.

(** Their documented shape contracts. *)
Record kernels_contract (K : Kernels) : Prop := {
  interpolate_shape :
    forall b c h w nh nw m s,
      interpolate [b; c; h; w] (nh, nw) m = Ok s -> s = [b; c; nh; nw];
  flash_attention_score_shape :
    forall q k v mask s, flash_attention_score q k v mask = Ok s -> s = q
}.

End Shape.

(* ===================================================================== *)
(** ** attention_cache.py *)
(* ===================================================================== *)

Module Attention.
Import Shape.

(** [class Attention]: the projections and the two head reshapes come from
    the base class, [layer_idx] and [use_todo] are added by the subclass. *)
Record t : Type := {
  to_q : shape -> result shape;
  to_k : shape -> result shape;
  to_v : shape -> result shape;
  add_q_proj : shape -> result shape;
  add_k_proj : shape -> result shape;
  add_v_proj : shape -> result shape;
  to_out_0 : shape -> result shape;
  to_out_1 : shape -> result shape;
  to_add_out : shape -> result shape;
  head_to_batch_dim : shape -> result shape;
  batch_to_head_dim : shape -> result shape;
  context_pre_only : bool;
  layer_idx : Z;
  use_todo : bool
}.

(** A layer that leaves the sequence axis of a (batch, sequence, channel)
    tensor alone: the linear projections act on the last axis, the head
    reshapes trade batch against channel. *)
Definition keeps_sequence (f : shape -> result shape) : Prop :=
  forall b n d s, f [b; n; d] = Ok s -> exists b' d', s = [b'; n; d'].

Record contract (attn : t) : Prop := {
  to_q_seq : keeps_sequence (to_q attn);
  add_q_proj_seq : keeps_sequence (add_q_proj attn);
  to_out_0_seq : keeps_sequence (to_out_0 attn);
  to_out_1_seq : keeps_sequence (to_out_1 attn);
  to_add_out_seq : keeps_sequence (to_add_out attn);
  head_to_batch_dim_seq : keeps_sequence (head_to_batch_dim attn);
  batch_to_head_dim_seq : keeps_sequence (batch_to_head_dim attn)
}.

(** [int(math.sqrt(n))].  [math.sqrt] is correctly rounded, so the truncated
    root is the integer square root for every length below 2^52. *)
Definition int_sqrt (n : Z) : Z := Z.sqrt n.

(** The same value through binary64, as the interpreter computes it. *)
Definition int_sqrt_binary64 (n : Z) : result Z :=
  int_of_float (PrimFloat.sqrt (float_of_int n)).

(** [int(cur / merge_factor)]. *)
Definition merged_size (cur : Z) (merge_factor : float) : result Z :=
  q <- truediv cur merge_factor ;;
  int_of_float q.

Section Kernels.
Context `{K : Kernels}.

(** [downsample(hidden_states, merge_factor, method)]. *)
Definition downsample (hidden_states : shape) (merge_factor : float)
    (method : interpolation) : result shape :=
  '(batch_size, channel) <-
      match hidden_states with
      | [b; _; c] => Ok (b, c)
      | _ => Raise ValueError
      end ;;
  n <- getitem hidden_states 1 ;;
  let cur_h := int_sqrt n in
  let cur_w := cur_h in
  new_h <- merged_size cur_h merge_factor ;;
  new_w <- merged_size cur_w merge_factor ;;
  permuted <- permute hidden_states [0; 2; 1] ;;
  hidden_states <- reshape permuted [batch_size; channel; cur_h; cur_w] ;;
  merged_hidden_states <- interpolate hidden_states (new_h, new_w) method ;;
  permuted <- permute merged_hidden_states [0; 2; 3; 1] ;;
  reshape permuted [batch_size; -1; channel].

(** The literal [2.2] of line 149. *)
Definition merge_factor : float := 2.2%float.

(** Line 148: [use_downsample and layer_idx <= 11]. *)
Definition downsample_applies (use_downsample : bool) (layer_idx : Z) : bool :=
  use_downsample && (layer_idx <=? 11).

(** Lines 148-149: the tensor that [to_k] and [to_v] project. *)
Definition key_value_states (hidden_states : shape) (layer_idx : Z)
    (use_downsample : bool) : result shape :=
  if downsample_applies use_downsample layer_idx
  then downsample hidden_states merge_factor Bilinear
  else Ok hidden_states.

(** Lines 136-138 and 140-142: a 4-d input is flattened to
    (batch, height * width, channel). *)
Definition flatten_4d (x : shape) : result (shape * (Z * Z * Z)) :=
  match x with
  | [batch_size; channel; height; width] =>
      v <- reshape x [batch_size; channel; height * width] ;;
      s <- swapaxes v 1 2 ;;
      Ok (s, (channel, height, width))
  | _ => Raise ValueError
  end.

(** Lines 187 and 189: back to (batch_size, channel, height, width). *)
Definition restore_4d (x : shape) (batch_size : Z) (chw : option (Z * Z * Z))
    : result shape :=
  match chw with
  | Some (channel, height, width) =>
      s <- swapaxes x (-1) (-2) ;;
      reshape s [batch_size; channel; height; width]
  | None => Raise TypeError
  end.

(** [JointAttnProcessor.__call__]. *)
Definition call (attn : t) (hidden_states : shape)
    (encoder_hidden_states : option shape) (attention_mask : option shape)
    (layer_idx : Z) (use_downsample : bool) : result (shape * shape) :=
  let residual := hidden_states in
  let input_ndim := ndim hidden_states in
  '(hidden_states, chw) <-
      (if input_ndim =? 4
       then '(s, d) <- flatten_4d hidden_states ;; Ok (s, Some d)
       else Ok (hidden_states, None)) ;;
  context <- match encoder_hidden_states with
             | Some e => Ok e
             | None => Raise AttributeError
             end ;;
  let context_input_ndim := ndim context in
  '(context, chw) <-
      (if context_input_ndim =? 4
       then '(s, d) <- flatten_4d context ;; Ok (s, Some d)
       else Ok (context, chw)) ;;
  batch_size <- getitem context 0 ;;
  (* sample projections *)
  query <- to_q attn hidden_states ;;
  hidden_states <- key_value_states hidden_states layer_idx use_downsample ;;
  key <- to_k attn hidden_states ;;
  value <- to_v attn hidden_states ;;
  (* context projections *)
  context_query <- add_q_proj attn context ;;
  context_key <- add_k_proj attn context ;;
  context_value <- add_v_proj attn context ;;
  (* attention *)
  query <- cat1 query context_query ;;
  key <- cat1 key context_key ;;
  value <- cat1 value context_value ;;
  query <- head_to_batch_dim attn query ;;
  key <- head_to_batch_dim attn key ;;
  value <- head_to_batch_dim attn value ;;
  hidden_states <- flash_attention_score query key value attention_mask ;;
  hidden_states <- batch_to_head_dim attn hidden_states ;;
  (* split the attention outputs *)
  n <- getitem residual 1 ;;
  primary <- take1 hidden_states n ;;
  context <- drop1 hidden_states n ;;
  (* linear proj, dropout *)
  primary <- to_out_0 attn primary ;;
  primary <- to_out_1 attn primary ;;
  context <- (if negb (context_pre_only attn) then to_add_out attn context
              else Ok context) ;;
  primary <- (if input_ndim =? 4 then restore_4d primary batch_size chw
              else Ok primary) ;;
  context <- (if context_input_ndim =? 4 then restore_4d context batch_size chw
              else Ok context) ;;
  Ok (primary, context).

(** [Attention.construct] with a [JointAttnProcessor] as processor: the layer
    index and the [use_todo] flag of the cell are handed to the processor. *)
Definition construct (self : t) (hidden_states : shape)
    (encoder_hidden_states : option shape) (attention_mask : option shape)
    : result (shape * shape) :=
  call self hidden_states encoder_hidden_states attention_mask
    (layer_idx self) (use_todo self).

(** Lines 136-138, 140-142: the (batch, sequence, channel) view of an
    input of the processor. *)
Definition flattened (x : shape) : result shape :=
  if ndim x =? 4 then '(s, _) <- flatten_4d x ;; Ok s else Ok x.

(** Lines 147-169 as a relation: the joint attention kernel has run on
    queries projected from [x] and on keys and values projected from [kv],
    each joined with the projections of the context [ctx]. *)
Definition attends_with (attn : t) (x kv ctx : shape)
    (attention_mask : option shape) : Prop :=
  exists q k v cq ck cv qj kj vj qh kh vh a,
    to_q attn x = Ok q /\
    to_k attn kv = Ok k /\
    to_v attn kv = Ok v /\
    add_q_proj attn ctx = Ok cq /\
    add_k_proj attn ctx = Ok ck /\
    add_v_proj attn ctx = Ok cv /\
    cat1 q cq = Ok qj /\
    cat1 k ck = Ok kj /\
    cat1 v cv = Ok vj /\
    head_to_batch_dim attn qj = Ok qh /\
    head_to_batch_dim attn kj = Ok kh /\
    head_to_batch_dim attn vj = Ok vh /\
    flash_attention_score qh kh vh attention_mask = Ok a.

End Kernels.

End Attention.

(* ===================================================================== *)
(** ** A concrete attention cell on shapes *)
(* ===================================================================== *)

Module ShapeModel.
Import Shape.

(** [Dense(d_in, d_out)] on the last axis. *)
Definition dense (d_in d_out : Z) (s : shape) : result shape :=
  match rev s with
  | d :: r => if d =? d_in then Ok (rev (d_out :: r)) else Raise ValueError
  | [] => Raise ValueError
  end.

(** The base class's head reshapes. *)
Definition head_to_batch_dim (heads : Z) (s : shape) : result shape :=
  match s with
  | [b; n; d] =>
      if (0 <? heads) && (d mod heads =? 0) then Ok [b * heads; n; d / heads]
      else Raise ValueError
  | _ => Raise ValueError
  end.

Definition batch_to_head_dim (heads : Z) (s : shape) : result shape :=
  match s with
  | [b; n; d] =>
      if (0 <? heads) && (b mod heads =? 0) then Ok [b / heads; n; d * heads]
      else Raise ValueError
  | _ => Raise ValueError
  end.

#[export] Instance kernels : Kernels := {
  interpolate := fun s size method =>
    match s with
    | [b; c; h; w] =>
        if (0 <? fst size) && (0 <? snd size) then Ok [b; c; fst size; snd size]
        else Raise ValueError
    | _ => Raise ValueError
    end;
  flash_attention_score := fun q k v mask =>
    match q, k, v with
    | [qb; qn; qd], [kb; kn; kd], [vb; vn; vd] =>
        if (qb =? kb) && (kb =? vb) && (qd =? kd) && (kd =? vd) && (kn =? vn)
        then Ok q else Raise ValueError
    | _, _, _ => Raise ValueError
    end
}.

(** The cell of a block of width [dim] with [heads] heads. *)
Definition attention (dim heads : Z) (context_pre_only : bool) (layer_idx : Z)
    (use_todo : bool) : Attention.t := {|
  Attention.to_q := dense dim dim;
  Attention.to_k := dense dim dim;
  Attention.to_v := dense dim dim;
  Attention.add_q_proj := dense dim dim;
  Attention.add_k_proj := dense dim dim;
  Attention.add_v_proj := dense dim dim;
  Attention.to_out_0 := dense dim dim;
  Attention.to_out_1 := fun s => Ok s;
  Attention.to_add_out := dense dim dim;
  Attention.head_to_batch_dim := head_to_batch_dim heads;
  Attention.batch_to_head_dim := batch_to_head_dim heads;
  Attention.context_pre_only := context_pre_only;
  Attention.layer_idx := layer_idx;
  Attention.use_todo := use_todo
|}.

End ShapeModel.

(* ===================================================================== *)
(** ** SD3Transformer2DModelCache.construct *)
(* ===================================================================== *)

Module Model.
Import JointTransformerCacheBlock.
Import Stdlib.Strings.String.

(** What [construct] does to the layout of a tensor. *)
Class LayoutOps (Tensor : Type) : Type := {
  tshape : Tensor -> list Z;                        (* x.shape *)
  treshape : Tensor -> list Z -> result Tensor;     (* x.reshape(dims) *)
  ttranspose : Tensor -> list Z -> result Tensor    (* x.transpose(axes) *)
}.

(** [height, width = shape[-2:]]. *)
Definition last_two (shape : list Z) : result (Z * Z) :=
  match slice shape (-2) (len shape) with
  | [height; width] => Ok (height, width)
  | _ => Raise ValueError
  end.

(** Lines 218-235, the unpatchify step: (batch, tokens, features) to
    (batch, out_channels, height, width). *)
Definition unpatchify {Tensor : Type} `{LayoutOps Tensor}
    (patch_size out_channels : Z) (hidden_states : Tensor) (height width : Z)
    : result Tensor :=
  height <- floordiv height patch_size ;;
  width <- floordiv width patch_size ;;
  batch <- getitem (tshape hidden_states) 0 ;;
  hidden_states <-
      treshape hidden_states
        [batch; height; width; patch_size; patch_size; out_channels] ;;
  hidden_states <- ttranspose hidden_states [0; 5; 1; 3; 2; 4] ;;
  batch <- getitem (tshape hidden_states) 0 ;;
  treshape hidden_states
    [batch; out_channels; height * patch_size; width * patch_size].

(** ["scale" in joint_attention_kwargs] on a dict given by its items. *)
Definition has_key {Any : Type} (d : list (string * Any)) (key : string)
    : bool :=
  existsb (fun item => String.eqb (fst item) key) d.

(** The cells and settings of the model that [construct] uses; the
    embedders and the output head are built by the base class. *)
Record t (Tensor : Type) : Type := {
  pos_embed : Tensor -> result Tensor;
  time_text_embed : option Tensor -> option Tensor -> result Tensor;
  context_embedder : option Tensor -> result Tensor;
  norm_out : Tensor -> Tensor -> result Tensor;
  proj_out : Tensor -> result Tensor;
  transformer_blocks : list (JointTransformerCacheBlock.t Tensor);
  patch_size : Z;                                   (* config["patch_size"] *)
  out_channels : Z
}.
Arguments pos_embed {Tensor}.
Arguments time_text_embed {Tensor}.
Arguments context_embedder {Tensor}.
Arguments norm_out {Tensor}.
Arguments proj_out {Tensor}.
Arguments transformer_blocks {Tensor}.
Arguments patch_size {Tensor}.
Arguments out_channels {Tensor}.

(** The three values that [construct] can return. *)
Inductive returned (Tensor : Type) : Type :=
| Output (output : Tensor)                                    (* (output,) *)
| OutputWithDeltas (output : Tensor)
    (delta_cache delta_cache_hidden : option Tensor)
| Transformer2DModelOutput (sample : Tensor).
Arguments Output {Tensor}.
Arguments OutputWithDeltas {Tensor}.
Arguments Transformer2DModelOutput {Tensor}.

(** [construct] returns, raises what the cells and the executor raise, or
    raises its own RuntimeError. *)
Inductive outcome (Tensor : Type) : Type :=
| Returns (r : returned Tensor)
| Raises (e : exn)
| RaisesRuntimeError.
Arguments Returns {Tensor}.
Arguments Raises {Tensor}.
Arguments RaisesRuntimeError {Tensor}.

Definition of_result {Tensor : Type} (r : result (returned Tensor))
    : outcome Tensor :=
  match r with
  | Ok v => Returns v
  | Raise e => Raises e
  end.

Section Construct.
Context {Tensor : Type} `{TensorOps Tensor} `{LayoutOps Tensor} {Any : Type}.

Definition construct (self : t Tensor) (hidden_states : Tensor)
    (encoder_hidden_states pooled_projections timestep : option Tensor)
    (block_controlnet_hidden_states : option (list Tensor))
    (joint_attention_kwargs : option (list (string * Any)))
    (return_dict : bool) (cache_params : option (list Z)) (if_skip : bool)
    (delta_cache delta_cache_hidden : option Tensor) (use_cache : bool)
    : outcome Tensor :=
  if match joint_attention_kwargs with
     | Some kwargs => has_key kwargs "scale"
     | None => false
     end
  then RaisesRuntimeError
  else
    of_result
      ('(height, width) <- last_two (tshape hidden_states) ;;
       hidden_states <- pos_embed self hidden_states ;;
       temb <- time_text_embed self timestep pooled_projections ;;
       encoder_hidden_states <- context_embedder self encoder_hidden_states ;;
       '(encoder_hidden_states, hidden_states, delta_cache,
         delta_cache_hidden) <-
           SD3Transformer2DModelCache.forward_blocks (transformer_blocks self)
             hidden_states (Some encoder_hidden_states)
             block_controlnet_hidden_states temb use_cache if_skip
             cache_params delta_cache delta_cache_hidden ;;
       hidden_states <- norm_out self hidden_states temb ;;
       hidden_states <- proj_out self hidden_states ;;
       output <- unpatchify (patch_size self) (out_channels self)
                   hidden_states height width ;;
       if negb return_dict then
         Ok (if use_cache
             then OutputWithDeltas output delta_cache delta_cache_hidden
             else Output output)
       else Ok (Transformer2DModelOutput output)).

End Construct.

(** The layout operations on shapes. *)
#[global] Instance shape_layout : LayoutOps Shape.shape := {
  tshape := fun s => s;
  treshape := Shape.reshape;
  ttranspose := Shape.permute
}.

End Model.

(* ===================================================================== *)
(** ** The forward pass on shapes *)
(* ===================================================================== *)

(** The executor and [construct] run on shapes: arithmetic broadcasts, the
    cells of a block keep the shape of what they are given. *)
Module ShapeRun.
Import Shape JointTransformerCacheBlock.

(** Broadcasting of two shapes of the same rank. *)
Fixpoint broadcast (a b : shape) : result shape :=
  match a, b with
  | [], [] => Ok []
  | x :: a', y :: b' =>
      r <- broadcast a' b' ;;
      if x =? y then Ok (x :: r)
      else if x =? 1 then Ok (y :: r)
      else if y =? 1 then Ok (x :: r)
      else Raise ValueError
  | _, _ => Raise ValueError
  end.

#[export] Instance shape_ops : TensorOps shape := {
  tadd := broadcast;
  tsub := broadcast;
  tmul := broadcast;
  unsqueeze1 := fun s => match s with
                         | d0 :: r => d0 :: 1 :: r
                         | [] => []
                         end;
  one_plus := fun s => s;
  chunked_feed_forward := fun net x _ _ => net x
}.

Definition shape_cells : Cells shape := {|
  norm1 := fun x temb => Ok (x, temb, temb, temb, temb);
  norm1_context_continuous := fun x _ => Ok x;
  norm1_context_zero := fun x temb => Ok (x, temb, temb, temb, temb);
  attn := fun x c => Ok (x, c);
  norm2 := fun x => Ok x;
  ff := fun x => Ok x;
  norm2_context := fun x => Ok x;
  ff_context := fun x => Ok x;
  _chunk_size := None;
  _chunk_dim := 0
|}.

(** A model of width [dim]: patches of side [patch] become tokens of [dim]
    features, the output head gives patch * patch * out features a token. *)
Definition model (num_layers dim patch out : Z) : Model.t shape := {|
  Model.pos_embed := fun x =>
    match x with
    | [b; _; h; w] =>
        if patch =? 0 then Raise ZeroDivisionError
        else Ok [b; (h / patch) * (w / patch); dim]
    | _ => Raise ValueError
    end;
  Model.time_text_embed := fun timestep pooled =>
    match timestep, pooled with
    | Some [b], Some [b'; _] =>
        if b =? b' then Ok [b; dim] else Raise ValueError
    | _, _ => Raise TypeError
    end;
  Model.context_embedder := fun context =>
    match context with
    | Some [b; n; _] => Ok [b; n; dim]
    | Some _ => Raise ValueError
    | None => Raise TypeError
    end;
  Model.norm_out := fun x _ => Ok x;
  Model.proj_out := fun x =>
    match x with
    | [b; n; _] => Ok [b; n; patch * patch * out]
    | _ => Raise ValueError
    end;
  Model.transformer_blocks :=
    SD3Transformer2DModelCache.transformer_blocks (fun _ => shape_cells)
      num_layers;
  Model.patch_size := patch;
  Model.out_channels := out
|}.

End ShapeRun.

(* ===================================================================== *)
(** ** Dimensions of an attention cell *)
(* ===================================================================== *)

Module AttentionDims.
Import Shape.

(** A layer that maps the last axis of a (batch, sequence, channel) tensor
    to [d_out] channels and leaves the other two axes alone, as a linear
    projection does. *)
Definition maps_last_axis (f : shape -> result shape) (d_out : Z) : Prop :=
  forall b n d s, f [b; n; d] = Ok s -> s = [b; n; d_out].

(** A cell whose projections go to [inner] channels and whose output
    projections go to [out] channels; dropout keeps the shape, and the two
    head reshapes undo each other. *)
Record cell_dims (attn : Attention.t) (inner out : Z) : Prop := {
  to_q_dims : maps_last_axis (Attention.to_q attn) inner;
  add_q_proj_dims : maps_last_axis (Attention.add_q_proj attn) inner;
  to_out_0_dims : maps_last_axis (Attention.to_out_0 attn) out;
  to_out_1_dims : forall s s', Attention.to_out_1 attn s = Ok s' -> s' = s;
  to_add_out_dims : maps_last_axis (Attention.to_add_out attn) out;
  heads_round_trip :
    forall b n d s s',
      Attention.head_to_batch_dim attn [b; n; d] = Ok s ->
      Attention.batch_to_head_dim attn s = Ok s' ->
      s' = [b; n; d]
}.

(** binary64 against the exact quotient: [int(h / 2.2)] is [5 * h // 11] or
    one less, and one less only at multiples of 11. *)
Definition merged_size_checked (h : Z) : bool :=
  match Attention.merged_size h Attention.merge_factor with
  | Ok k =>
      (5 * h / 11 - 1 <=? k) && (k <=? 5 * h / 11)
      && ((h mod 11 =? 0) || (k =? 5 * h / 11))
  | Raise _ => false
  end.

End AttentionDims.

(* ===================================================================== *)
(** ** Facts about the Python prelude *)
(* ===================================================================== *)

Lemma bind_ok {A B : Type} (m : result A) (k : A -> result B) (b : B) :
  bind m k = Ok b <-> exists a, m = Ok a /\ k a = Ok b.
Proof.
  destruct m as [a|e]; simpl; split.
  - intros Hk. exists a. split; [reflexivity | exact Hk].
  - intros [a' [Ha Hk]]. inversion Ha; subst. exact Hk.
  - discriminate.
  - intros [a' [Ha _]]. discriminate.
Qed.

Lemma bind_raise {A B : Type} (m : result A) (k : A -> result B) :
  raises m -> raises (bind m k).
Proof. intros [e ->]. exists e. reflexivity. Qed.

Lemma raises_Raise {A : Type} (e : exn) : raises (@Raise A e).
Proof. exists e. reflexivity. Qed.

Lemma not_ok_raises {A : Type} (m : result A) :
  (forall a, m <> Ok a) -> raises m.
Proof.
  destruct m as [a|e]; intros Hm.
  - exfalso. apply (Hm a). reflexivity.
  - apply raises_Raise.
Qed.

Lemma raises_not_ok {A : Type} (m : result A) (a : A) :
  raises m -> m <> Ok a.
Proof. intros [e ->]. discriminate. Qed.

(** Takes a hypothesis [bind m k = Ok b] apart, as often as it applies. *)
Ltac bind_inv H :=
  let a := fresh "a" in
  let Ha := fresh "Hstep" in
  apply bind_ok in H; destruct H as [a [Ha H]];
  try (bind_inv H).

Lemma slice_bound_len (n : Z) : 0 <= n -> slice_bound n n = n.
Proof. intros Hn. unfold slice_bound. destruct (n <? 0) eqn:E; lia. Qed.

Lemma slice_empty_at {A : Type} (l : list A) (i : Z) : slice l i i = [].
Proof. unfold slice. rewrite Z.sub_diag. reflexivity. Qed.

Lemma slice_whole {A : Type} (l : list A) : slice l 0 (len l) = l.
Proof.
  unfold slice. assert (Hn : 0 <= len l) by (unfold len; lia).
  rewrite (slice_bound_len _ Hn).
  unfold slice_bound. simpl. rewrite Z.min_l by exact Hn.
  rewrite Z.sub_0_r. simpl. unfold len. rewrite Nat2Z.id.
  apply firstn_all.
Qed.

Lemma firstn_add_skipn {A : Type} (p q : nat) (l : list A) :
  firstn (p + q) l = firstn p l ++ firstn q (skipn p l).
Proof.
  revert l. induction p as [|p IH]; intros l.
  - reflexivity.
  - destruct l as [|x l]; simpl.
    + destruct q; reflexivity.
    + rewrite IH. reflexivity.
Qed.

Lemma slice_from_zero {A : Type} (l : list A) (b : Z) :
  0 <= b -> slice l 0 b = firstn (Z.to_nat (Z.min b (len l))) l.
Proof.
  intros Hb. unfold slice, slice_bound.
  assert (Hn : 0 <= len l) by (unfold len; lia).
  destruct (b <? 0) eqn:E; [lia|]. simpl.
  rewrite (Z.min_l 0 (len l)) by exact Hn. rewrite Z.sub_0_r. reflexivity.
Qed.

(** [l[0:b] = l[0:a] + l[a:b]] for [0 <= a <= b]. *)
Lemma slice_split {A : Type} (l : list A) (a b : Z) :
  0 <= a -> a <= b -> slice l 0 b = slice l 0 a ++ slice l a b.
Proof.
  intros Ha Hab.
  rewrite (slice_from_zero l b) by lia. rewrite (slice_from_zero l a) by lia.
  unfold slice, slice_bound.
  destruct (a <? 0) eqn:Ea; [lia|]. destruct (b <? 0) eqn:Eb; [lia|].
  rewrite <- firstn_add_skipn. f_equal. lia.
Qed.

Lemma length_slice_from_zero {A : Type} (l : list A) (a : Z) :
  0 <= a -> len (slice l 0 a) = slice_bound (len l) a.
Proof.
  intros Ha. rewrite slice_from_zero by exact Ha.
  unfold len at 1. rewrite length_firstn.
  unfold slice_bound. destruct (a <? 0) eqn:E; [lia|].
  unfold len. lia.
Qed.

(* ===================================================================== *)
(** ** The delta-cache executor *)
(* ===================================================================== *)

Import JointTransformerCacheBlock SD3Transformer2DModelCache.

(** Takes [H : ... = Ok _] apart along the binds and tuple patterns of the
    computation on its left. *)
Ltac unbind H :=
  repeat first
    [ apply bind_ok in H; destruct H as [? [? H]]
    | match type of H with
      | (match ?x with (_, _) => _ end) = Ok _ => destruct x; cbv beta match in H
      | (let (_, _) := ?x in _) = Ok _ => destruct x; cbv beta match in H
      end ].

Section ExecutorFacts.
Context {Tensor : Type} `{TensorOps Tensor}.

Lemma py_add_ok (a b : option Tensor) (r : Tensor) :
  py_add a b = Ok r <-> exists x y, a = Some x /\ b = Some y /\ tadd x y = Ok r.
Proof.
  split.
  - destruct a as [x|], b as [y|]; simpl; try discriminate.
    intros Hr. exists x, y. auto.
  - intros [x [y [-> [-> Hr]]]]. exact Hr.
Qed.

Lemma py_sub_ok (a b : option Tensor) (r : Tensor) :
  py_sub a b = Ok r <-> exists x y, a = Some x /\ b = Some y /\ tsub x y = Ok r.
Proof.
  split.
  - destruct a as [x|], b as [y|]; simpl; try discriminate.
    intros Hr. exists x, y. auto.
  - intros [x [y [-> [-> Hr]]]]. exact Hr.
Qed.

Lemma py_copy_ok (x : option Tensor) (r : Tensor) :
  py_copy x = Ok r <-> x = Some r.
Proof.
  destruct x as [t|]; simpl; split; intros Hx; inversion Hx; reflexivity.
Qed.

(** What a returning CACHE_SKIP call went through. *)
Lemma skip_run_inv
    (blocks : list (JointTransformerCacheBlock.t Tensor))
    (hs : Tensor) (ehs : option Tensor) (ctrl : option (list Tensor))
    (temb : Tensor) (cache_params : option (list Z))
    (delta_cache delta_cache_hidden : option Tensor) (out : outcome) :
  forward_blocks blocks hs ehs ctrl temb true true cache_params
    delta_cache delta_cache_hidden = Ok out ->
  exists c w h1 e1 d dh h2 e2 h3 e3,
    subscript cache_params 0 = Ok c /\
    subscript cache_params 2 = Ok w /\
    forward_blocks_range blocks hs ehs ctrl temb 0 c = Ok (h1, Some e1) /\
    delta_cache = Some d /\ delta_cache_hidden = Some dh /\
    tadd h1 d = Ok h2 /\ tadd e1 dh = Ok e2 /\
    forward_blocks_range blocks h2 (Some e2) ctrl temb (c + w) (len blocks)
      = Ok (h3, e3) /\
    out = ((e3, h3), Some d, Some dh).
Proof.
  unfold forward_blocks. cbn [negb]. intros Hrun.
  apply bind_ok in Hrun as [c [Hc Hrun]].
  apply bind_ok in Hrun as [[h1 e1o] [Hpre Hrun]].
  apply bind_ok in Hrun as [c' [Hc' Hrun]].
  apply bind_ok in Hrun as [w [Hw Hrun]].
  apply bind_ok in Hrun as [hb [Hhb Hrun]].
  apply bind_ok in Hrun as [eb [Heb Hrun]].
  apply bind_ok in Hrun as [[[[h2 e2o] d'] dh'] [Hskip Hrun]].
  apply bind_ok in Hrun as [[h3 e3] [Hpost Hrun]].
  apply bind_ok in Hskip as [h2' [Hsum Hskip]].
  apply bind_ok in Hskip as [e2 [Hsum' Hskip]].
  rewrite Hc in Hc'. inversion Hc'; subst c'.
  apply py_copy_ok in Hhb, Heb. inversion Hhb; subst hb. subst e1o.
  apply py_add_ok in Hsum as [x [d [Hx [Hd Hsum]]]].
  apply py_add_ok in Hsum' as [x' [dh [Hx' [Hdh Hsum']]]].
  inversion Hx; subst x. inversion Hx'; subst x'.
  inversion Hskip; subst. inversion Hrun; subst.
  exists c, w, h1, eb, d, dh, h2, e2, h3, e3.
  repeat split; assumption.
Qed.

(** What a returning CACHE_RECOMPUTE call went through. *)
Lemma recompute_run_inv
    (blocks : list (JointTransformerCacheBlock.t Tensor))
    (hs : Tensor) (ehs : option Tensor) (ctrl : option (list Tensor))
    (temb : Tensor) (cache_params : option (list Z))
    (delta_cache delta_cache_hidden : option Tensor) (out : outcome) :
  forward_blocks blocks hs ehs ctrl temb true false cache_params
    delta_cache delta_cache_hidden = Ok out ->
  exists c w h1 e1 h2 e2 d dh h3 e3,
    subscript cache_params 0 = Ok c /\
    subscript cache_params 2 = Ok w /\
    forward_blocks_range blocks hs ehs ctrl temb 0 c = Ok (h1, Some e1) /\
    forward_blocks_range blocks h1 (Some e1) ctrl temb c (c + w)
      = Ok (h2, Some e2) /\
    tsub h2 h1 = Ok d /\ tsub e2 e1 = Ok dh /\
    forward_blocks_range blocks h2 (Some e2) ctrl temb (c + w) (len blocks)
      = Ok (h3, e3) /\
    out = ((e3, h3), Some d, Some dh).
Proof.
  unfold forward_blocks. cbn [negb]. intros Hrun.
  apply bind_ok in Hrun as [c [Hc Hrun]].
  apply bind_ok in Hrun as [[h1 e1o] [Hpre Hrun]].
  apply bind_ok in Hrun as [c' [Hc' Hrun]].
  apply bind_ok in Hrun as [w [Hw Hrun]].
  apply bind_ok in Hrun as [hb [Hhb Hrun]].
  apply bind_ok in Hrun as [eb [Heb Hrun]].
  apply bind_ok in Hrun as [[[[h2 e2o] d'] dh'] [Hwin Hrun]].
  apply bind_ok in Hrun as [[h3 e3] [Hpost Hrun]].
  apply bind_ok in Hwin as [c'' [Hc'' Hwin]].
  apply bind_ok in Hwin as [[h2' e2o'] [Hrange Hwin]].
  apply bind_ok in Hwin as [d [Hd Hwin]].
  apply bind_ok in Hwin as [dh [Hdh Hwin]].
  rewrite Hc in Hc', Hc''. inversion Hc'; subst c'. inversion Hc''; subst c''.
  apply py_copy_ok in Hhb, Heb. inversion Hhb; subst hb. subst e1o.
  apply py_sub_ok in Hd as [x [y [Hx [Hy Hd]]]].
  apply py_sub_ok in Hdh as [x' [y' [Hx' [Hy' Hdh]]]].
  inversion Hx; subst x. inversion Hy; subst y. inversion Hy'; subst y'.
  subst e2o'. inversion Hwin; subst. inversion Hrun; subst.
  exists c, w, h1, eb, h2, x', d, dh, h3, e3.
  repeat split; assumption.
Qed.

(** C1.  A CACHE_SKIP call (use_cache and if_skip both true) returns exactly
    when the range [0, cache_start) returns some state (h1, e1), both deltas
    are supplied, the sums h1 + delta_cache and e1 + delta_cache_hidden are
    defined and the range [cache_end, N) returns from those sums; the state
    that enters the post-window range is the snapshot plus the supplied delta
    on both streams, and the two deltas come back as they were passed. *)
Theorem cache_skip_applies_delta
    (blocks : list (JointTransformerCacheBlock.t Tensor))
    (hs : Tensor) (ehs : option Tensor) (ctrl : option (list Tensor))
    (temb : Tensor) (cache_params : option (list Z))
    (delta_cache delta_cache_hidden : option Tensor) (out : outcome) :
  forward_blocks blocks hs ehs ctrl temb true true cache_params
    delta_cache delta_cache_hidden = Ok out
  <->
  exists c w h1 e1 d dh h2 e2 h3 e3,
    subscript cache_params 0 = Ok c /\
    subscript cache_params 2 = Ok w /\
    forward_blocks_range blocks hs ehs ctrl temb 0 c = Ok (h1, Some e1) /\
    delta_cache = Some d /\ delta_cache_hidden = Some dh /\
    tadd h1 d = Ok h2 /\ tadd e1 dh = Ok e2 /\
    forward_blocks_range blocks h2 (Some e2) ctrl temb (c + w) (len blocks)
      = Ok (h3, e3) /\
    out = ((e3, h3), delta_cache, delta_cache_hidden).
Proof.
  split.
  - intros Hrun. apply skip_run_inv in Hrun.
    destruct Hrun as [c [w [h1 [e1 [d [dh [h2 [e2 [h3 [e3 Hall]]]]]]]]]].
    destruct Hall as [Hc [Hw [Hpre [Hd [Hdh [Hsum [Hsum' [Hpost Hout]]]]]]]].
    exists c, w, h1, e1, d, dh, h2, e2, h3, e3. subst. repeat split; assumption.
  - intros [c [w [h1 [e1 [d [dh [h2 [e2 [h3 [e3 Hall]]]]]]]]]].
    destruct Hall as [Hc [Hw [Hpre [-> [-> [Hsum [Hsum' [Hpost ->]]]]]]]].
    unfold forward_blocks. cbn [negb].
    rewrite Hc. simpl. rewrite Hpre. simpl. rewrite Hw. simpl.
    rewrite Hsum. simpl. rewrite Hsum'. simpl. rewrite Hpost. reflexivity.
Qed.

(** C2.  A CACHE_RECOMPUTE call (use_cache true, if_skip false) returns
    exactly when the three ranges return in turn and the two differences are
    defined; the deltas it returns are then (state after the window range)
    minus (state before it) on both streams, so they exist only once the
    window range has run to its end.  The deltas passed in play no part. *)
Theorem cache_recompute_records_delta
    (blocks : list (JointTransformerCacheBlock.t Tensor))
    (hs : Tensor) (ehs : option Tensor) (ctrl : option (list Tensor))
    (temb : Tensor) (cache_params : option (list Z))
    (delta_cache delta_cache_hidden : option Tensor) (out : outcome) :
  (forward_blocks blocks hs ehs ctrl temb true false cache_params
     delta_cache delta_cache_hidden = Ok out
   <->
   exists c w h1 e1 h2 e2 d dh h3 e3,
     subscript cache_params 0 = Ok c /\
     subscript cache_params 2 = Ok w /\
     forward_blocks_range blocks hs ehs ctrl temb 0 c = Ok (h1, Some e1) /\
     forward_blocks_range blocks h1 (Some e1) ctrl temb c (c + w)
       = Ok (h2, Some e2) /\
     tsub h2 h1 = Ok d /\ tsub e2 e1 = Ok dh /\
     forward_blocks_range blocks h2 (Some e2) ctrl temb (c + w) (len blocks)
       = Ok (h3, e3) /\
     out = ((e3, h3), Some d, Some dh))
  /\
  (forall other other_hidden : option Tensor,
     forward_blocks blocks hs ehs ctrl temb true false cache_params
       delta_cache delta_cache_hidden
     = forward_blocks blocks hs ehs ctrl temb true false cache_params
         other other_hidden).
Proof.
  split; [split|].
  - apply recompute_run_inv.
  - intros [c [w [h1 [e1 [h2 [e2 [d [dh [h3 [e3 Hall]]]]]]]]]].
    destruct Hall as [Hc [Hw [Hpre [Hwin [Hd [Hdh [Hpost ->]]]]]]].
    unfold forward_blocks. cbn [negb].
    rewrite Hc. simpl. rewrite Hpre. simpl. rewrite Hw. simpl.
    rewrite Hwin. simpl. rewrite Hd. simpl. rewrite Hdh. simpl.
    rewrite Hpost. reflexivity.
  - intros other other_hidden. reflexivity.
Qed.

(** C6.  A CACHE_SKIP call with no delta for the primary stream, or none for
    the auxiliary stream, raises: whatever the other inputs are, it does not
    return, so no zero delta takes the place of the missing one. *)
Theorem cache_skip_without_delta_raises
    (blocks : list (JointTransformerCacheBlock.t Tensor))
    (hs : Tensor) (ehs : option Tensor) (ctrl : option (list Tensor))
    (temb : Tensor) (cache_params : option (list Z)) (delta : option Tensor) :
  raises (forward_blocks blocks hs ehs ctrl temb true true cache_params
            None delta)
  /\
  raises (forward_blocks blocks hs ehs ctrl temb true true cache_params
            delta None).
Proof.
  split; apply not_ok_raises; intros out Hrun; apply skip_run_inv in Hrun;
    destruct Hrun as [c [w [h1 [e1 [d [dh [h2 [e2 [h3 [e3 Hall]]]]]]]]]];
    destruct Hall as [_ [_ [_ [Hd [Hdh _]]]]]; discriminate.
Qed.

(** C9.  The executor reads entries 0 and 2 of cache_params only: two
    descriptors that agree there give the same result, whatever their
    step_stride and start_use_step entries are. *)
Theorem executor_ignores_stride_and_start_step
    (blocks : list (JointTransformerCacheBlock.t Tensor))
    (hs : Tensor) (ehs : option Tensor) (ctrl : option (list Tensor))
    (temb : Tensor) (use_cache if_skip : bool) (p q : list Z)
    (delta_cache delta_cache_hidden : option Tensor) :
  getitem p 0 = getitem q 0 ->
  getitem p 2 = getitem q 2 ->
  forward_blocks blocks hs ehs ctrl temb use_cache if_skip (Some p)
    delta_cache delta_cache_hidden
  = forward_blocks blocks hs ehs ctrl temb use_cache if_skip (Some q)
      delta_cache delta_cache_hidden.
Proof.
  intros H0 H2. unfold forward_blocks, subscript.
  rewrite H0, H2. reflexivity.
Qed.

(** A context-pre-only block hands back no auxiliary state. *)
Lemma construct_pre_only (self : JointTransformerCacheBlock.t Tensor)
    (h : Tensor) (e : option Tensor) (temb : Tensor)
    (e' : option Tensor) (h' : Tensor) :
  context_pre_only self = true ->
  construct self h e temb = Ok (e', h') ->
  e' = None.
Proof.
  intros Hpre Hrun. unfold construct in Hrun. rewrite Hpre in Hrun.
  unbind Hrun. inversion Hrun. reflexivity.
Qed.

(** A block called without auxiliary state raises. *)
Lemma construct_without_context (self : JointTransformerCacheBlock.t Tensor)
    (h temb : Tensor) :
  raises (construct self h None temb).
Proof.
  unfold construct.
  destruct (norm1 (cells self) h temb) as [[[[[n g] sh] sc] gm]|x]; simpl.
  - apply raises_Raise.
  - apply raises_Raise.
Qed.

(** After a run that ends with a context-pre-only block the auxiliary state
    is absent. *)
Lemma run_blocks_terminal (n : Z) (ctrl : option (list Tensor)) (temb : Tensor)
    (bs : list (JointTransformerCacheBlock.t Tensor))
    (b : JointTransformerCacheBlock.t Tensor) :
  context_pre_only b = true ->
  forall (i : Z) (h : Tensor) (e : option Tensor) (h' : Tensor)
         (e' : option Tensor),
    run_blocks n ctrl temb i (bs ++ [b]) h e = Ok (h', e') -> e' = None.
Proof.
  intros Hpre. induction bs as [|b0 bs IH]; intros i h e h' e' Hrun.
  - simpl in Hrun.
    apply bind_ok in Hrun as [[e1 h1] [Hb Hrun]].
    apply bind_ok in Hrun as [h2 [_ Hrun]].
    inversion Hrun; subst.
    eapply construct_pre_only; eassumption.
  - simpl in Hrun.
    apply bind_ok in Hrun as [[e1 h1] [_ Hrun]].
    apply bind_ok in Hrun as [h2 [_ Hrun]].
    eapply IH; eassumption.
Qed.

(** C5 (amended).  With the window (0, N): if the CACHE_RECOMPUTE call
    returns, the NO_CACHE call on the same input returns the same output
    state; on a stack whose last block is context-pre-only the
    CACHE_RECOMPUTE call raises. *)
Theorem recompute_over_whole_stack
    (blocks : list (JointTransformerCacheBlock.t Tensor))
    (hs : Tensor) (ehs : option Tensor) (ctrl : option (list Tensor))
    (temb : Tensor) (cache_params : option (list Z))
    (delta_cache delta_cache_hidden : option Tensor) :
  subscript cache_params 0 = Ok 0 ->
  subscript cache_params 2 = Ok (len blocks) ->
  (forall st d dh,
     forward_blocks blocks hs ehs ctrl temb true false cache_params
       delta_cache delta_cache_hidden = Ok (st, d, dh) ->
     forall (if_skip : bool) (any_params : option (list Z)),
       forward_blocks blocks hs ehs ctrl temb false if_skip any_params
         delta_cache delta_cache_hidden
       = Ok (st, delta_cache, delta_cache_hidden))
  /\
  (forall bs b,
     blocks = bs ++ [b] -> context_pre_only b = true ->
     raises (forward_blocks blocks hs ehs ctrl temb true false cache_params
               delta_cache delta_cache_hidden)).
Proof.
  intros H0 H2. split.
  - intros st d dh Hrun if_skip any_params.
    apply recompute_run_inv in Hrun.
    destruct Hrun as [c [w [h1 [e1 [h2 [e2 [d' [dh' [h3 [e3 Hall]]]]]]]]]].
    destruct Hall as [Hc [Hw [Hpre [Hwin [_ [_ [Hpost Hout]]]]]]].
    rewrite H0 in Hc. inversion Hc; subst c.
    rewrite H2 in Hw. inversion Hw; subst w.
    unfold forward_blocks_range in Hpre, Hpost.
    rewrite slice_empty_at in Hpre, Hpost. simpl in Hpre, Hpost.
    inversion Hpre; subst. inversion Hpost; subst. inversion Hout; subst.
    unfold forward_blocks. cbn [negb]. simpl in Hwin.
    rewrite Hwin. reflexivity.
  - intros bs b Hblocks Hlast.
    apply not_ok_raises. intros out Hrun.
    apply recompute_run_inv in Hrun.
    destruct Hrun as [c [w [h1 [e1 [h2 [e2 [d' [dh' [h3 [e3 Hall]]]]]]]]]].
    destruct Hall as [Hc [Hw [_ [Hwin _]]]].
    rewrite H0 in Hc. inversion Hc; subst c.
    rewrite H2 in Hw. inversion Hw; subst w.
    unfold forward_blocks_range in Hwin. simpl in Hwin.
    rewrite slice_whole in Hwin. rewrite Hblocks in Hwin at 2.
    apply run_blocks_terminal in Hwin; [discriminate | exact Hlast].
Qed.

(** *** Local and global block index *)

Lemma run_blocks_app (n : Z) (ctrl : option (list Tensor)) (temb : Tensor)
    (xs ys : list (JointTransformerCacheBlock.t Tensor)) :
  forall (i : Z) (h : Tensor) (e : option Tensor),
    run_blocks n ctrl temb i (xs ++ ys) h e
    = ('(h1, e1) <- run_blocks n ctrl temb i xs h e ;;
       run_blocks n ctrl temb (i + len xs) ys h1 e1).
Proof.
  induction xs as [|x xs IH]; intros i h e.
  - simpl. rewrite Z.add_0_r. reflexivity.
  - simpl app. cbn [run_blocks].
    destruct (construct x h e temb) as [[e1 h1]|err]; [|reflexivity]. simpl.
    destruct (controlnet_residual n ctrl x i h1) as [h2|err]; [|reflexivity].
    simpl. rewrite IH. replace (i + 1 + len xs) with (i + len (x :: xs)).
    + reflexivity.
    + unfold len. simpl length. lia.
Qed.

(** Without controlnet residuals the loop counter is never read. *)
Lemma run_blocks_no_controlnet (n : Z) (temb : Tensor)
    (bs : list (JointTransformerCacheBlock.t Tensor)) :
  forall (i j : Z) (h : Tensor) (e : option Tensor),
    run_blocks n None temb i bs h e = run_blocks n None temb j bs h e.
Proof.
  induction bs as [|b bs IH]; intros i j h e.
  - reflexivity.
  - cbn [run_blocks].
    destruct (construct b h e temb) as [[e1 h1]|err]; [|reflexivity]. simpl.
    apply IH.
Qed.

(** From the start of the stack the code's counter is the global index:
    this is the call that the NO_CACHE path makes. *)
Lemma forward_blocks_range_from_start
    (blocks : list (JointTransformerCacheBlock.t Tensor))
    (h : Tensor) (e : option Tensor) (ctrl : option (list Tensor))
    (temb : Tensor) (end_idx : Z) :
  forward_blocks_range blocks h e ctrl temb 0 end_idx
  = forward_range_by_global_index blocks h e ctrl temb 0 end_idx.
Proof.
  unfold forward_blocks_range, forward_range_by_global_index, slice_bound.
  simpl. rewrite Z.min_l by (unfold len; lia). reflexivity.
Qed.

Lemma forward_blocks_range_no_controlnet
    (blocks : list (JointTransformerCacheBlock.t Tensor))
    (h : Tensor) (e : option Tensor) (temb : Tensor) (start_idx end_idx : Z) :
  forward_blocks_range blocks h e None temb start_idx end_idx
  = forward_range_by_global_index blocks h e None temb start_idx end_idx.
Proof.
  unfold forward_blocks_range, forward_range_by_global_index.
  apply run_blocks_no_controlnet.
Qed.

(** Ranges counted by global index compose: running [0, b) is running
    [0, a) and then [a, b). *)
Lemma global_index_ranges_compose
    (blocks : list (JointTransformerCacheBlock.t Tensor))
    (h : Tensor) (e : option Tensor) (ctrl : option (list Tensor))
    (temb : Tensor) (a b : Z) :
  0 <= a -> a <= b ->
  forward_range_by_global_index blocks h e ctrl temb 0 b
  = ('(h1, e1) <- forward_range_by_global_index blocks h e ctrl temb 0 a ;;
     forward_range_by_global_index blocks h1 e1 ctrl temb a b).
Proof.
  intros Ha Hab. unfold forward_range_by_global_index.
  rewrite (slice_split blocks a b Ha Hab). rewrite run_blocks_app.
  rewrite length_slice_from_zero by exact Ha.
  replace (slice_bound (len blocks) 0) with 0.
  - reflexivity.
  - unfold slice_bound. simpl. rewrite Z.min_l by (unfold len; lia).
    reflexivity.
Qed.

(** Without controlnet residuals, and with a window inside the stack, a
    returning CACHE_RECOMPUTE call and the NO_CACHE call end in the same
    state: the three ranges are one full run cut in three. *)
Lemma recompute_agrees_without_controlnet
    (blocks : list (JointTransformerCacheBlock.t Tensor))
    (hs : Tensor) (ehs : option Tensor) (temb : Tensor)
    (cache_params : option (list Z)) (c w : Z)
    (delta_cache delta_cache_hidden : option Tensor) st d dh :
  subscript cache_params 0 = Ok c ->
  subscript cache_params 2 = Ok w ->
  0 <= c -> 0 <= w -> c + w <= len blocks ->
  forward_blocks blocks hs ehs None temb true false cache_params
    delta_cache delta_cache_hidden = Ok (st, d, dh) ->
  forall (if_skip : bool) (any_params : option (list Z)),
    forward_blocks blocks hs ehs None temb false if_skip any_params
      delta_cache delta_cache_hidden
    = Ok (st, delta_cache, delta_cache_hidden).
Proof.
  intros H0 H2 Hc Hw Hin Hrun if_skip any_params.
  apply recompute_run_inv in Hrun.
  destruct Hrun as [c' [w' [h1 [e1 [h2 [e2 [d' [dh' [h3 [e3 Hall]]]]]]]]]].
  destruct Hall as [Hc' [Hw' [Hpre [Hwin [_ [_ [Hpost Hout]]]]]]].
  rewrite H0 in Hc'. inversion Hc'; subst c'.
  rewrite H2 in Hw'. inversion Hw'; subst w'.
  inversion Hout; subst.
  rewrite forward_blocks_range_no_controlnet in Hpre, Hwin, Hpost.
  unfold forward_blocks. cbn [negb].
  rewrite forward_blocks_range_no_controlnet.
  rewrite (global_index_ranges_compose blocks hs ehs None temb (c + w)
             (len blocks)) by lia.
  rewrite (global_index_ranges_compose blocks hs ehs None temb c (c + w))
    by lia.
  rewrite Hpre. simpl. rewrite Hwin. simpl. rewrite Hpost. reflexivity.
Qed.

(** The index of a context-pre-only block is never read either. *)
Lemma run_terminal_block (n : Z) (ctrl : option (list Tensor)) (temb : Tensor)
    (b : JointTransformerCacheBlock.t Tensor) (i j : Z) (h : Tensor)
    (e : option Tensor) :
  context_pre_only b = true ->
  run_blocks n ctrl temb i [b] h e = run_blocks n ctrl temb j [b] h e.
Proof.
  intros Hpre. simpl. unfold controlnet_residual. rewrite Hpre.
  destruct ctrl; reflexivity.
Qed.

Lemma slice_all_but_last {A : Type} (xs : list A) (x : A) :
  slice (xs ++ [x]) 0 (len xs) = xs
  /\ slice (xs ++ [x]) (len xs) (len (xs ++ [x])) = [x].
Proof.
  assert (Hn : 0 <= len xs) by (unfold len; lia).
  assert (Hle : len xs <= len (xs ++ [x]))
    by (unfold len; rewrite length_app; lia).
  assert (Hfst : slice (xs ++ [x]) 0 (len xs) = xs).
  { rewrite slice_from_zero by exact Hn. rewrite Z.min_l by exact Hle.
    unfold len. rewrite Nat2Z.id. rewrite firstn_app, firstn_all.
    rewrite Nat.sub_diag. simpl. apply app_nil_r. }
  split; [exact Hfst|].
  pose proof (slice_split (xs ++ [x]) (len xs) (len (xs ++ [x])) Hn Hle)
    as Hsplit.
  rewrite slice_whole, Hfst in Hsplit.
  apply app_inv_head in Hsplit. symmetry. exact Hsplit.
Qed.

(** A window over every block but a context-pre-only last one: a returning
    CACHE_RECOMPUTE call ends in the state of the NO_CACHE call, with or
    without controlnet residuals.  The window starts at 0, where the loop
    counter is the global index, and the only block behind it takes no
    residual. *)
Lemma recompute_up_to_terminal_block
    (bs : list (JointTransformerCacheBlock.t Tensor))
    (b : JointTransformerCacheBlock.t Tensor)
    (hs : Tensor) (ehs : option Tensor) (ctrl : option (list Tensor))
    (temb : Tensor) (cache_params : option (list Z))
    (delta_cache delta_cache_hidden : option Tensor) st d dh :
  context_pre_only b = true ->
  subscript cache_params 0 = Ok 0 ->
  subscript cache_params 2 = Ok (len bs) ->
  forward_blocks (bs ++ [b]) hs ehs ctrl temb true false cache_params
    delta_cache delta_cache_hidden = Ok (st, d, dh) ->
  forall (if_skip : bool) (any_params : option (list Z)),
    forward_blocks (bs ++ [b]) hs ehs ctrl temb false if_skip any_params
      delta_cache delta_cache_hidden
    = Ok (st, delta_cache, delta_cache_hidden).
Proof.
  intros Hlast H0 H2 Hrun if_skip any_params.
  apply recompute_run_inv in Hrun.
  destruct Hrun as [c [w [h1 [e1 [h2 [e2 [d' [dh' [h3 [e3 Hall]]]]]]]]]].
  destruct Hall as [Hc [Hw [Hpre [Hwin [_ [_ [Hpost Hout]]]]]]].
  rewrite H0 in Hc. inversion Hc; subst c.
  rewrite H2 in Hw. inversion Hw; subst w.
  inversion Hout; subst. simpl in Hwin, Hpost.
  destruct (slice_all_but_last bs b) as [Hfst Hsnd].
  unfold forward_blocks_range in Hpre, Hwin, Hpost.
  rewrite slice_empty_at in Hpre. simpl in Hpre. inversion Hpre; subst.
  rewrite Hfst in Hwin. rewrite Hsnd in Hpost.
  unfold forward_blocks. cbn [negb]. unfold forward_blocks_range.
  rewrite slice_whole, run_blocks_app, Hwin. cbv beta match.
  unfold bind at 2.
  rewrite (run_terminal_block _ ctrl temb b (0 + len bs) 0 h2 (Some e2) Hlast).
  rewrite Hpost. reflexivity.
Qed.

End ExecutorFacts.

(* ===================================================================== *)
(** ** The executor on integer vectors *)
(* ===================================================================== *)

Import VectorModel.

(** On the four-block stack with all-ones [temb], block [i] maps [x] to
    [2 * x + (i + 1)].  From 0 the primary stream runs 1, 4, 11, 26. *)
Example no_cache_run :
  forward_blocks (stack 4) [0] (Some [0]) None [1] false false None None None
  = Ok ((None, [26]), None, None).
Proof. reflexivity. Qed.

(** Window [1, 2): before it 1, after it 4, delta 3 on both streams. *)
Example recompute_run :
  forward_blocks (stack 4) [0] (Some [0]) None [1] true false
    (Some [1; 2; 1; 3]) None None
  = Ok ((None, [26]), Some [3], Some [3]).
Proof. reflexivity. Qed.

(** The same window skipped with a stale delta 6: blocks 2 and 3 start from
    1 + 6 = 7 and end on 2 * (2 * 7 + 3) + 4 = 38; the delta comes back. *)
Example skip_run :
  forward_blocks (stack 4) [0] (Some [0]) None [1] true true
    (Some [1; 2; 1; 3]) (Some [6]) (Some [6])
  = Ok ((None, [38]), Some [6], Some [6]).
Proof. reflexivity. Qed.

Example skip_run_without_delta :
  forward_blocks (stack 4) [0] (Some [0]) None [1] true true
    (Some [1; 2; 1; 3]) None (Some [6])
  = Raise TypeError.
Proof. reflexivity. Qed.

(** C3.  Four blocks, two controlnet residuals 10 and 20 (bucket size 2),
    window [1, 2).  The NO_CACHE run adds residual 1 after block 2 and ends
    on 186.  The CACHE_RECOMPUTE run, on the same input, adds residual 0
    after block 2, the first block behind the window, and ends on 166: fed
    the same state (34, 4), block 2 gives 81 where the full run gives 91. *)
Theorem recompute_diverges_with_controlnet :
  forward_blocks (stack 4) [0] (Some [0]) (Some [[10]; [20]]) [1]
    false false None None None
  = Ok ((None, [186]), None, None)
  /\
  forward_blocks (stack 4) [0] (Some [0]) (Some [[10]; [20]]) [1]
    true false (Some [1; 2; 1; 3]) None None
  = Ok ((None, [166]), Some [23], Some [3])
  /\
  forward_blocks_range (stack 4) [0] (Some [0]) (Some [[10]; [20]]) [1] 0 2
  = Ok ([34], Some [4])
  /\
  forward_blocks_range (stack 4) [34] (Some [4]) (Some [[10]; [20]]) [1] 2 3
  = Ok ([81], Some [11])
  /\
  forward_blocks_range (stack 4) [0] (Some [0]) (Some [[10]; [20]]) [1] 0 3
  = Ok ([91], Some [11]).
Proof. repeat split. Qed.

(** C4.  Four blocks, residuals 10 and 20, so the bucket size is 4 // 2 = 2.
    Range [2, 3) from state (0, 0): block 2 alone gives 3.  Its global index
    2 lies in bucket 1 (residual 20, result 23); the code counts from the
    start of the range, takes bucket 0 // 2 = 0 and returns 3 + 10 = 13. *)
Theorem range_residual_uses_local_index :
  forward_blocks_range (stack 4) [0] (Some [0]) None [1] 2 3
  = Ok ([3], Some [3])
  /\
  forward_blocks_range (stack 4) [0] (Some [0]) (Some [[10]; [20]]) [1] 2 3
  = Ok ([13], Some [3])
  /\
  forward_range_by_global_index (stack 4) [0] (Some [0])
    (Some [[10]; [20]]) [1] 2 3
  = Ok ([23], Some [3]).
Proof. repeat split. Qed.

(** C5, as stated, fails on the stack that [__init__] builds for two
    layers: the NO_CACHE call returns, the CACHE_RECOMPUTE call with the
    window (0, 2) raises at [None - encoder_hidden_states_before_cache]. *)
Lemma recompute_whole_stack_counterexample :
  forward_blocks (stack 2) [0] (Some [0]) None [1] false false None None None
  = Ok ((None, [4]), None, None)
  /\
  forward_blocks (stack 2) [0] (Some [0]) None [1] true false
    (Some [0; 1; 2; 1]) None None
  = Raise TypeError
  /\
  final_state
    (forward_blocks (stack 2) [0] (Some [0]) None [1] false false None
       None None)
  <> final_state
       (forward_blocks (stack 2) [0] (Some [0]) None [1] true false
          (Some [0; 1; 2; 1]) None None).
Proof. repeat split. discriminate. Qed.

(** On a stack without a context-pre-only block the whole-stack window
    returns, and so does the NO_CACHE call, with the same state. *)
Lemma recompute_over_whole_stack_witness :
  forward_blocks (open_stack 2) [0] (Some [0]) None [1] false true None
    None None
  = Ok ((Some [4], [4]), None, None).
Proof.
  refine (proj1 (recompute_over_whole_stack (open_stack 2) [0] (Some [0]) None
                   [1] (Some [0; 1; 2; 1]) None None _ _)
            (Some [4], [4]) (Some [4]) (Some [4]) _ true None);
    reflexivity.
Defined.

Lemma executor_ignores_stride_and_start_step_witness :
  forward_blocks (stack 4) [0] (Some [0]) None [1] true false
    (Some [1; 2; 1; 3]) None None
  = forward_blocks (stack 4) [0] (Some [0]) None [1] true false
      (Some [1; 7; 1; 9]) None None.
Proof.
  refine (executor_ignores_stride_and_start_step (stack 4) [0] (Some [0]) None
            [1] true false [1; 2; 1; 3] [1; 7; 1; 9] None None _ _);
    reflexivity.
Defined.

(* ===================================================================== *)
(** ** Shape rules *)
(* ===================================================================== *)

Import Shape.

Lemma reshape_plain (s : shape) (target : list Z) :
  Forall (fun d => 0 <= d) target ->
  reshape s target
  = if numel s =? numel target then Ok target else Raise ValueError.
Proof.
  intros Hpos. unfold reshape.
  assert (Hcount : count_occ Z.eq_dec target (-1) = 0%nat).
  { induction Hpos as [|d r Hd _ IH]; simpl.
    - reflexivity.
    - destruct (Z.eq_dec d (-1)); [lia | exact IH]. }
  assert (Hfilter : filter (fun d => negb (d =? -1)) target = target).
  { clear Hcount. induction Hpos as [|d r Hd _ IH]; simpl.
    - reflexivity.
    - destruct (d =? -1) eqn:E; [lia|]. simpl. rewrite IH. reflexivity. }
  rewrite Hcount, Hfilter. reflexivity.
Qed.

Lemma reshape_infer_middle (s : shape) (b c : Z) :
  0 < b -> 0 < c ->
  reshape s [b; -1; c]
  = if numel s mod (b * c) =? 0 then Ok [b; numel s / (b * c); c]
    else Raise ValueError.
Proof.
  intros Hb Hc. unfold reshape. simpl count_occ.
  destruct (Z.eq_dec b (-1)); [lia|].
  destruct (Z.eq_dec c (-1)); [lia|]. simpl.
  destruct (b =? -1) eqn:Eb; [lia|].
  destruct (c =? -1) eqn:Ec; [lia|]. simpl.
  rewrite Z.mul_1_r.
  destruct (b * c =? 0) eqn:Ebc; [apply Z.eqb_eq in Ebc; nia|].
  reflexivity.
Qed.

Lemma take1_prefix (b n m d : Z) :
  0 <= n -> 0 <= m -> take1 [b; n + m; d] n = Ok [b; n; d].
Proof.
  intros Hn Hm. unfold take1, slice_bound.
  destruct (n <? 0) eqn:E; [lia|].
  rewrite Z.min_l by lia. rewrite Z.max_r by lia. reflexivity.
Qed.

Lemma drop1_suffix (b n m d : Z) :
  0 <= n -> 0 <= m -> drop1 [b; n + m; d] n = Ok [b; m; d].
Proof.
  intros Hn Hm. unfold drop1, slice_bound.
  destruct (n <? 0) eqn:E; [lia|].
  rewrite Z.min_l by lia. rewrite Z.max_r by lia.
  replace (n + m - n) with m by lia. reflexivity.
Qed.

Lemma cat1_ok (a b s : shape) :
  cat1 a b = Ok s ->
  exists a0 a1 b1 r, a = a0 :: a1 :: r /\ b = a0 :: b1 :: r /\
                     s = a0 :: (a1 + b1) :: r.
Proof.
  destruct a as [|a0 [|a1 ar]]; simpl; try discriminate.
  destruct b as [|b0 [|b1 br]]; simpl; try discriminate.
  destruct (a0 =? b0) eqn:E0; simpl; [|discriminate].
  destruct (list_eq_dec Z.eq_dec ar br) as [Er|Er]; [|discriminate].
  intros Hs. inversion Hs; subst. apply Z.eqb_eq in E0. subst b0.
  exists a0, a1, b1, br. auto.
Qed.

(* ===================================================================== *)
(** ** The attention processor *)
(* ===================================================================== *)

Section AttentionFacts.
Context `{K : Kernels}.
Import Attention.

Lemma key_value_states_skipped (x : shape) (layer_idx : Z)
    (use_downsample : bool) :
  downsample_applies use_downsample layer_idx = false ->
  key_value_states x layer_idx use_downsample = Ok x.
Proof. intros Hgate. unfold key_value_states. rewrite Hgate. reflexivity. Qed.

Lemma flattened_of_step (x s : shape) (chw chw' : option (Z * Z * Z)) :
  (if ndim x =? 4
   then '(s, d) <- flatten_4d x ;; Ok (s, Some d)
   else Ok (x, chw)) = Ok (s, chw') ->
  flattened x = Ok s.
Proof.
  unfold flattened. destruct (ndim x =? 4).
  - destruct (flatten_4d x) as [[s' d]|err]; simpl; [|discriminate].
    intros Hs. inversion Hs. reflexivity.
  - intros Hs. inversion Hs. reflexivity.
Qed.

(** What the attention kernel was given in a returning call. *)
Lemma call_inv (attn : Attention.t) (hidden_states : shape)
    (encoder_hidden_states attention_mask : option shape) (layer_idx : Z)
    (use_downsample : bool) (out : shape * shape) :
  call attn hidden_states encoder_hidden_states attention_mask layer_idx
    use_downsample = Ok out ->
  exists x e ctx kv,
    flattened hidden_states = Ok x /\
    encoder_hidden_states = Some e /\
    flattened e = Ok ctx /\
    key_value_states x layer_idx use_downsample = Ok kv /\
    attends_with attn x kv ctx attention_mask.
Proof.
  unfold call. intros Hcall.
  apply bind_ok in Hcall as [[x chw] [Hx Hcall]].
  apply bind_ok in Hcall as [e [He Hcall]].
  destruct encoder_hidden_states as [e'|]; [|discriminate].
  inversion He; subst e'. clear He.
  apply bind_ok in Hcall as [[ctx chw'] [Hctx Hcall]].
  apply bind_ok in Hcall as [batch_size [_ Hcall]].
  apply bind_ok in Hcall as [q [Eq Hcall]].
  apply bind_ok in Hcall as [kv [Ekv Hcall]].
  apply bind_ok in Hcall as [k [Ek Hcall]].
  apply bind_ok in Hcall as [v [Ev Hcall]].
  apply bind_ok in Hcall as [cq [Ecq Hcall]].
  apply bind_ok in Hcall as [ck [Eck Hcall]].
  apply bind_ok in Hcall as [cv [Ecv Hcall]].
  apply bind_ok in Hcall as [qj [Eqj Hcall]].
  apply bind_ok in Hcall as [kj [Ekj Hcall]].
  apply bind_ok in Hcall as [vj [Evj Hcall]].
  apply bind_ok in Hcall as [qh [Eqh Hcall]].
  apply bind_ok in Hcall as [kh [Ekh Hcall]].
  apply bind_ok in Hcall as [vh [Evh Hcall]].
  apply bind_ok in Hcall as [a [Ea _]].
  exists x, e, ctx, kv.
  split; [exact (flattened_of_step _ _ _ _ Hx)|].
  split; [reflexivity|].
  split; [exact (flattened_of_step _ _ _ _ Hctx)|].
  split; [exact Ekv|].
  exists q, k, v, cq, ck, cv, qj, kj, vj, qh, kh, vh, a.
  repeat split; assumption.
Qed.

(** C7.  Lines 148-149 down-sample the tensor that to_k and to_v project
    exactly when use_downsample is set and layer_idx <= 11: the first twelve
    layers.  In every returning call the query is projected from the primary
    state itself; with the gate on, the keys and values that reach the
    attention kernel are projected from the primary state down-sampled with
    merge factor 2.2, bilinear, and a primary state that [downsample]
    rejects makes the call raise; with the gate off they are projected from
    the primary state as it is, and the call is the call with the flag off.
    At index 11 the down-sampling is applied, at index 12 it is skipped. *)
Theorem downsample_layer_cutoff (attn : Attention.t) (hidden_states : shape)
    (encoder_hidden_states attention_mask : option shape) (layer_idx : Z)
    (use_downsample : bool) :
  (downsample_applies use_downsample layer_idx = true
   <-> use_downsample = true /\ layer_idx <= 11)
  /\
  key_value_states hidden_states layer_idx use_downsample
  = (if use_downsample && (layer_idx <=? 11)
     then downsample hidden_states merge_factor Bilinear
     else Ok hidden_states)
  /\
  (forall out,
     call attn hidden_states encoder_hidden_states attention_mask layer_idx
       use_downsample = Ok out ->
     exists x e ctx kv,
       flattened hidden_states = Ok x /\
       encoder_hidden_states = Some e /\
       flattened e = Ok ctx /\
       (downsample_applies use_downsample layer_idx = true ->
        downsample x merge_factor Bilinear = Ok kv) /\
       (downsample_applies use_downsample layer_idx = false -> kv = x) /\
       attends_with attn x kv ctx attention_mask)
  /\
  (downsample_applies use_downsample layer_idx = true ->
   forall x,
     flattened hidden_states = Ok x ->
     raises (downsample x merge_factor Bilinear) ->
     raises (call attn hidden_states encoder_hidden_states attention_mask
               layer_idx use_downsample))
  /\
  (downsample_applies use_downsample layer_idx = false ->
   call attn hidden_states encoder_hidden_states attention_mask layer_idx
     use_downsample
   = call attn hidden_states encoder_hidden_states attention_mask layer_idx
       false)
  /\
  downsample_applies true 11 = true
  /\
  downsample_applies true 12 = false
  /\
  filter (downsample_applies true) (range 18) = range 12.
Proof.
  split; [|split; [|split; [|split; [|split; [|repeat split]]]]].
  - unfold downsample_applies. rewrite andb_true_iff, Z.leb_le. reflexivity.
  - reflexivity.
  - intros out Hcall. apply call_inv in Hcall.
    destruct Hcall as [x [e [ctx [kv [Hx [He [Hctx [Hkv Hattend]]]]]]]].
    exists x, e, ctx, kv. unfold key_value_states in Hkv.
    repeat split; try assumption.
    + intros Hgate. rewrite Hgate in Hkv. exact Hkv.
    + intros Hgate. rewrite Hgate in Hkv. inversion Hkv. reflexivity.
  - intros Hgate x Hx Hraise. apply not_ok_raises. intros out Hcall.
    apply call_inv in Hcall.
    destruct Hcall as [x' [e [ctx [kv [Hx' [_ [_ [Hkv _]]]]]]]].
    rewrite Hx in Hx'. inversion Hx'; subst x'.
    unfold key_value_states in Hkv. rewrite Hgate in Hkv.
    apply (raises_not_ok _ kv Hraise). exact Hkv.
  - intros Hgate. unfold call.
    destruct (if ndim hidden_states =? 4
              then '(s, d) <- flatten_4d hidden_states ;; Ok (s, Some d)
              else Ok (hidden_states, None)) as [[x chw]|err];
      [|reflexivity].
    simpl.
    destruct encoder_hidden_states as [context|]; [|reflexivity]. simpl.
    destruct (if ndim context =? 4
              then '(s, d) <- flatten_4d context ;; Ok (s, Some d)
              else Ok (context, chw)) as [[y chw']|err];
      [|reflexivity].
    simpl.
    destruct (getitem y 0) as [batch_size|err]; [|reflexivity]. simpl.
    destruct (to_q attn x) as [query|err]; [|reflexivity]. simpl.
    rewrite (key_value_states_skipped x layer_idx use_downsample Hgate).
    reflexivity.
Qed.

(** C8.  On a (batch, n, channel) primary state and a (batch, m, channel)
    auxiliary state, whenever the processor returns, its primary output has
    sequence length n and its auxiliary output sequence length m, with the
    down-sampling flag on or off: the query is projected before lines
    148-149 and the joint result is cut at residual.shape[1] = n. *)
Theorem primary_length_preserved (attn : Attention.t)
    (b n d cb m cd : Z) (attention_mask : option shape) (layer_idx : Z)
    (use_downsample : bool) (primary context : shape) :
  kernels_contract K -> contract attn ->
  0 <= n -> 0 <= m ->
  call attn [b; n; d] (Some [cb; m; cd]) attention_mask layer_idx
    use_downsample = Ok (primary, context) ->
  (exists b' d', primary = [b'; n; d']) /\
  (exists b' d', context = [b'; m; d']).
Proof.
  intros HK Hattn Hn Hm Hcall.
  destruct HK as [_ Hflash]. destruct Hattn as [Hq Hcq Ho0 Ho1 Hadd Hhb Hbh].
  unfold call in Hcall. simpl in Hcall.
  apply bind_ok in Hcall as [q [Eq Hcall]].
  apply bind_ok in Hcall as [kv [_ Hcall]].
  apply bind_ok in Hcall as [k [_ Hcall]].
  apply bind_ok in Hcall as [v [_ Hcall]].
  apply bind_ok in Hcall as [cq [Ecq Hcall]].
  apply bind_ok in Hcall as [ck [_ Hcall]].
  apply bind_ok in Hcall as [cv [_ Hcall]].
  apply bind_ok in Hcall as [q' [Ecat Hcall]].
  apply bind_ok in Hcall as [k' [_ Hcall]].
  apply bind_ok in Hcall as [v' [_ Hcall]].
  apply bind_ok in Hcall as [qh [Eqh Hcall]].
  apply bind_ok in Hcall as [kh [_ Hcall]].
  apply bind_ok in Hcall as [vh [_ Hcall]].
  apply bind_ok in Hcall as [a [Ea Hcall]].
  apply bind_ok in Hcall as [j [Ej Hcall]].
  apply bind_ok in Hcall as [p [Ep Hcall]].
  apply bind_ok in Hcall as [c [Ec Hcall]].
  apply bind_ok in Hcall as [p0 [Ep0 Hcall]].
  apply bind_ok in Hcall as [p1 [Ep1 Hcall]].
  apply bind_ok in Hcall as [c1 [Ec1 Hcall]].
  inversion Hcall; subst primary context. clear Hcall.
  apply Hq in Eq as [qb [qd ->]].
  apply Hcq in Ecq as [cqb [cqd ->]].
  apply cat1_ok in Ecat as [a0 [a1 [b1 [r [Ha [Hb ->]]]]]].
  inversion Ha; subst. inversion Hb; subst.
  apply Hhb in Eqh as [hb [hd ->]].
  apply Hflash in Ea. subst a.
  apply Hbh in Ej as [jb [jd ->]].
  rewrite take1_prefix in Ep by assumption. inversion Ep; subst p.
  rewrite drop1_suffix in Ec by assumption. inversion Ec; subst c.
  apply Ho0 in Ep0 as [b0 [d0 ->]].
  apply Ho1 in Ep1 as [b1' [d1 ->]].
  split.
  - exists b1', d1. reflexivity.
  - destruct (context_pre_only attn); simpl in Ec1.
    + inversion Ec1. exists jb, jd. reflexivity.
    + apply Hadd in Ec1 as [b2 [d2 ->]]. exists b2, d2. reflexivity.
Qed.

(** What a returning [downsample] went through. *)
Lemma downsample_inv (b n c : Z) (mf : float) (method : interpolation)
    (s : shape) :
  kernels_contract K -> 0 < b -> 0 <= n -> 0 < c ->
  downsample [b; n; c] mf method = Ok s ->
  n = int_sqrt n * int_sqrt n /\
  exists k g,
    merged_size (int_sqrt n) mf = Ok k /\
    interpolate [b; c; int_sqrt n; int_sqrt n] (k, k) method = Ok g /\
    s = [b; k * k; c].
Proof.
  intros HK Hb Hn Hc Hrun. destruct HK as [Hinterp _].
  assert (Hh : 0 <= int_sqrt n) by apply Z.sqrt_nonneg.
  assert (Hbc : b * c <> 0) by nia.
  unfold downsample in Hrun. simpl in Hrun.
  apply bind_ok in Hrun as [nh [Enh Hrun]].
  apply bind_ok in Hrun as [nw [Enw Hrun]].
  rewrite Enh in Enw. inversion Enw; subst nw.
  apply bind_ok in Hrun as [grid [Egrid Hrun]].
  apply bind_ok in Hrun as [merged [Emerged Hrun]].
  apply bind_ok in Hrun as [perm [Eperm Hrun]].
  rewrite reshape_plain in Egrid by (repeat constructor; lia).
  simpl in Egrid.
  destruct (b * (c * (n * 1)) =? b * (c * (int_sqrt n * (int_sqrt n * 1))))
    eqn:Esize; [|discriminate].
  inversion Egrid; subst grid.
  pose proof Emerged as Hshape. apply Hinterp in Hshape. subst merged.
  simpl in Eperm. inversion Eperm; subst perm.
  rewrite reshape_infer_middle in Hrun by assumption.
  apply Z.eqb_eq in Esize.
  simpl numel in Hrun.
  replace (b * (nh * (nh * (c * 1)))) with (nh * nh * (b * c)) in Hrun
    by ring.
  rewrite Z.mod_mul, Z.div_mul in Hrun by exact Hbc.
  simpl in Hrun. inversion Hrun; subst s.
  split.
  - apply (Z.mul_reg_l _ _ (b * c)); [exact Hbc | lia].
  - exists nh, [b; c; nh; nh]. repeat split; assumption.
Qed.

(** A square, non-empty input goes through as soon as the interpolation
    does. *)
Lemma downsample_returns (b n c : Z) (mf : float) (method : interpolation)
    (k : Z) (g : shape) :
  kernels_contract K -> 0 < b -> 0 <= n -> 0 < c ->
  n = int_sqrt n * int_sqrt n ->
  merged_size (int_sqrt n) mf = Ok k ->
  interpolate [b; c; int_sqrt n; int_sqrt n] (k, k) method = Ok g ->
  downsample [b; n; c] mf method = Ok [b; k * k; c].
Proof.
  intros HK Hb Hn Hc Hsq Hk Hg.
  assert (Hh : 0 <= int_sqrt n) by apply Z.sqrt_nonneg.
  assert (Hbc : b * c <> 0) by nia.
  pose proof Hg as Hshape. destruct HK as [Hinterp _].
  apply Hinterp in Hshape. subst g.
  unfold downsample. simpl. rewrite Hk. simpl.
  rewrite reshape_plain by (repeat constructor; lia).
  simpl numel.
  replace (b * (c * (n * 1)) =? b * (c * (int_sqrt n * (int_sqrt n * 1))))
    with true by (symmetry; apply Z.eqb_eq; rewrite Hsq at 1; ring).
  simpl. rewrite Hg. simpl.
  rewrite reshape_infer_middle by assumption.
  simpl numel.
  replace (b * (k * (k * (c * 1)))) with (k * k * (b * c)) by ring.
  rewrite Z.mod_mul, Z.div_mul by exact Hbc. reflexivity.
Qed.

(** C10 (amended).  [downsample] reads the sequence as an h-by-h grid with
    h the integer square root of the length n.  On a tensor with at least one
    batch entry and one channel it returns exactly when n is the square
    h * h and the interpolation of the grid to size (k, k) returns, with
    k = int(h / merge_factor) in binary64; the result then has shape
    (batch, k * k, channel).  For a length that is not a square it raises at
    the reshape to the grid.  The processor calls it with merge factor 2.2
    and bilinear interpolation. *)
Theorem downsample_square_grid (b n c : Z) (mf : float)
    (method : interpolation) :
  kernels_contract K -> 0 < b -> 0 <= n -> 0 < c ->
  (int_sqrt n * int_sqrt n <= n < (int_sqrt n + 1) * (int_sqrt n + 1))
  /\
  (forall s,
     downsample [b; n; c] mf method = Ok s
     <->
     n = int_sqrt n * int_sqrt n /\
     exists k g,
       merged_size (int_sqrt n) mf = Ok k /\
       interpolate [b; c; int_sqrt n; int_sqrt n] (k, k) method = Ok g /\
       s = [b; k * k; c])
  /\
  (n <> int_sqrt n * int_sqrt n -> raises (downsample [b; n; c] mf method))
  /\
  (forall x layer_idx,
     layer_idx <= 11 ->
     key_value_states x layer_idx true = downsample x 2.2%float Bilinear).
Proof.
  intros HK Hb Hn Hc.
  split; [|split; [|split]].
  - unfold int_sqrt. pose proof (Z.sqrt_spec n Hn) as Hs.
    unfold Z.succ in Hs. exact Hs.
  - intros s. split.
    + apply (downsample_inv b n c mf method s HK Hb Hn Hc).
    + intros [Hsq [k [g [Hk [Hg ->]]]]].
      apply (downsample_returns b n c mf method k g HK Hb Hn Hc Hsq Hk Hg).
  - intros Hns. apply not_ok_raises. intros s Hrun.
    apply (downsample_inv b n c mf method s HK Hb Hn Hc) in Hrun.
    destruct Hrun as [Hsq _]. contradiction.
  - intros x layer_idx Hlayer. unfold key_value_states, downsample_applies.
    simpl. apply Z.leb_le in Hlayer. rewrite Hlayer. reflexivity.
Qed.

End AttentionFacts.

(* ===================================================================== *)
(** ** The processor on the concrete cell *)
(* ===================================================================== *)

Import ShapeModel.

Lemma kernels_contract_holds : kernels_contract kernels.
Proof.
  split.
  - intros b c h w nh nw m s. simpl.
    destruct ((0 <? nh) && (0 <? nw)); [|discriminate].
    intros Hs. inversion Hs. reflexivity.
  - intros q k v mask s. simpl.
    destruct q as [|qb [|qn [|qd [|]]]]; try discriminate.
    destruct k as [|kb [|kn [|kd [|]]]]; try discriminate.
    destruct v as [|vb [|vn [|vd [|]]]]; try discriminate.
    destruct ((qb =? kb) && (kb =? vb) && (qd =? kd) && (kd =? vd)
              && (kn =? vn)); [|discriminate].
    intros Hs. inversion Hs. reflexivity.
Qed.

Lemma dense_keeps_sequence (d_in d_out : Z) :
  Attention.keeps_sequence (dense d_in d_out).
Proof.
  intros b n d s. unfold dense. simpl.
  destruct (d =? d_in); [|discriminate].
  intros Hs. inversion Hs. exists b, d_out. reflexivity.
Qed.

Lemma attention_contract (dim heads : Z) (context_pre_only : bool)
    (layer_idx : Z) (use_todo : bool) :
  Attention.contract (attention dim heads context_pre_only layer_idx use_todo).
Proof.
  split; simpl; try apply dense_keeps_sequence.
  - intros b n d s Hs. inversion Hs. exists b, d. reflexivity.
  - intros b n d s. unfold head_to_batch_dim.
    destruct ((0 <? heads) && (d mod heads =? 0)); [|discriminate].
    intros Hs. inversion Hs. exists (b * heads), (d / heads). reflexivity.
  - intros b n d s. unfold batch_to_head_dim.
    destruct ((0 <? heads) && (b mod heads =? 0)); [|discriminate].
    intros Hs. inversion Hs. exists (b / heads), (d * heads). reflexivity.
Qed.

(** Binary64 at work: 64 / 2.2 truncates to 29, and 33 / 2.2 rounds to
    14.999999999999998 and truncates to 14, one below the exact quotient. *)
Example merged_size_64 :
  Attention.merged_size 64 Attention.merge_factor = Ok 29.
Proof. reflexivity. Qed.

Example merged_size_33 :
  Attention.merged_size 33 Attention.merge_factor = Ok 14 /\ 5 * 33 / 11 = 15.
Proof. split; reflexivity. Qed.

(** The truncated binary64 root is the integer root on every length that a
    64-by-64 latent grid can reach. *)
Example int_sqrt_binary64_agrees :
  forallb (fun n => match Attention.int_sqrt_binary64 n with
                    | Ok r => r =? Attention.int_sqrt n
                    | Raise _ => false
                    end) (range 4200) = true.
Proof. vm_compute. reflexivity. Qed.

(** A 4-by-4 grid of 16 tokens with 3 context tokens: keys and values are
    merged to one token, the outputs keep 16 and 3. *)
Example call_downsampled :
  Attention.call (attention 8 2 false 0 true) [2; 16; 8] (Some [2; 3; 8])
    None 0 true
  = Ok ([2; 16; 8], [2; 3; 8]).
Proof. reflexivity. Qed.

(** The same call under the theorem: contracts, signs and the run are
    discharged on the concrete cell. *)
Lemma primary_length_preserved_witness :
  Attention.call (attention 8 2 false 0 true) [2; 16; 8] (Some [2; 3; 8])
    None 0 true
  = Ok ([2; 16; 8], [2; 3; 8])
  /\ (exists b' d', [2; 16; 8] = [b'; 16; d'])
  /\ (exists b' d', [2; 3; 8] = [b'; 3; d']).
Proof.
  split; [reflexivity|].
  refine (primary_length_preserved (attention 8 2 false 0 true)
            2 16 8 2 3 8 None 0 true [2; 16; 8] [2; 3; 8]
            kernels_contract_holds (attention_contract 8 2 false 0 true)
            _ _ _).
  - lia.
  - lia.
  - reflexivity.
Defined.

(** C10, as stated, fails on 17 positions: h = 4 and int(4 / 2.2) = 1, but
    no (1, 1, 1) tensor comes back with the trailing position dropped; the
    reshape of 17 entries to a 4-by-4 grid raises. *)
Lemma downsample_non_square_counterexample :
  Attention.int_sqrt 17 = 4
  /\
  Attention.merged_size 4 Attention.merge_factor = Ok 1
  /\
  Attention.downsample [1; 17; 1] Attention.merge_factor Bilinear
  = Raise ValueError
  /\
  Attention.downsample [1; 17; 1] Attention.merge_factor Bilinear
  <> Ok [1; 1 * 1; 1].
Proof. repeat split. discriminate. Qed.

Lemma downsample_square_grid_witness :
  Attention.downsample [2; 16; 8] Attention.merge_factor Bilinear
  = Ok [2; 1 * 1; 8].
Proof.
  refine (proj2 (proj1 (proj2
            (downsample_square_grid 2 16 8 Attention.merge_factor Bilinear
               kernels_contract_holds _ _ _))
            [2; 1 * 1; 8]) _).
  - lia.
  - lia.
  - lia.
  - split; [reflexivity|]. exists 1, [2; 8; 1; 1].
    repeat split; reflexivity.
Defined.

(* ===================================================================== *)
(** ** Further properties of the executor *)
(* ===================================================================== *)

Lemma slice_nonneg {A : Type} (l : list A) (s b : Z) :
  0 <= s -> 0 <= b ->
  slice l s b
  = firstn (Z.to_nat (Z.min b (len l) - Z.min s (len l)))
      (skipn (Z.to_nat (Z.min s (len l))) l).
Proof.
  intros Hs Hb. unfold slice, slice_bound.
  destruct (s <? 0) eqn:Es; [lia|]. destruct (b <? 0) eqn:Eb; [lia|].
  reflexivity.
Qed.

(** [l[s:b] = l[s:a] + l[a:b]] for [0 <= s <= a <= b]. *)
Lemma slice_split_from {A : Type} (l : list A) (s a b : Z) :
  0 <= s -> s <= a -> a <= b ->
  slice l s b = slice l s a ++ slice l a b.
Proof.
  intros Hs Hsa Hab.
  assert (Hn : 0 <= len l) by (unfold len; lia).
  rewrite !slice_nonneg by lia.
  set (n := len l). set (ls := Z.min s n). set (la := Z.min a n).
  set (lb := Z.min b n).
  replace (Z.to_nat (lb - ls))
    with (Z.to_nat (la - ls) + Z.to_nat (lb - la))%nat by lia.
  rewrite firstn_add_skipn, skipn_skipn.
  replace (Z.to_nat (la - ls) + Z.to_nat ls)%nat with (Z.to_nat la) by lia.
  reflexivity.
Qed.

(** A stop index beyond the end is the end. *)
Lemma slice_clip {A : Type} (l : list A) (s a : Z) :
  0 <= s -> len l <= a -> slice l s a = slice l s (len l).
Proof.
  intros Hs Ha. assert (Hn : 0 <= len l) by (unfold len; lia).
  rewrite !slice_nonneg by lia. rewrite (Z.min_r a) by lia.
  rewrite Z.min_id. reflexivity.
Qed.

Lemma slice_past_end {A : Type} (l : list A) (a b : Z) :
  len l <= a -> slice l a b = [].
Proof.
  intros Ha. assert (Hn : 0 <= len l) by (unfold len; lia).
  unfold slice.
  replace (slice_bound (len l) a) with (len l)
    by (unfold slice_bound; destruct (a <? 0) eqn:E; lia).
  assert (Hb : slice_bound (len l) b <= len l)
    by (unfold slice_bound; destruct (b <? 0) eqn:E; lia).
  replace (Z.to_nat (slice_bound (len l) b - len l)) with 0%nat by lia.
  reflexivity.
Qed.

(** [l[s:] = l[s:a] + l[a:]] for [0 <= s <= a], also when [a] lies beyond
    the end. *)
Lemma slice_split_end {A : Type} (l : list A) (s a : Z) :
  0 <= s -> s <= a ->
  slice l s (len l) = slice l s a ++ slice l a (len l).
Proof.
  intros Hs Hsa. destruct (Z_le_gt_dec a (len l)) as [Hin|Hout].
  - apply slice_split_from; assumption.
  - rewrite (slice_clip l s a) by lia.
    rewrite (slice_past_end l a) by lia. symmetry. apply app_nil_r.
Qed.

Section ExecutorComposition.
Context {Tensor : Type} `{TensorOps Tensor}.

(** Without controlnet residuals a range whose slice splits in two runs as
    the two ranges in turn. *)
Lemma range_split_without_controlnet
    (blocks : list (JointTransformerCacheBlock.t Tensor))
    (h : Tensor) (e : option Tensor) (temb : Tensor) (s a b : Z) :
  slice blocks s b = slice blocks s a ++ slice blocks a b ->
  forward_blocks_range blocks h e None temb s b
  = ('(h1, e1) <- forward_blocks_range blocks h e None temb s a ;;
     forward_blocks_range blocks h1 e1 None temb a b).
Proof.
  intros Hsplit. unfold forward_blocks_range.
  rewrite Hsplit, run_blocks_app.
  destruct (run_blocks (len blocks) None temb 0 (slice blocks s a) h e)
    as [[h1 e1]|err]; [|reflexivity].
  simpl. apply run_blocks_no_controlnet.
Qed.

(** X1.  Without controlnet residuals ranges compose: for
    0 <= start <= mid <= stop, running [start, stop) is running
    [start, mid) and then [mid, stop) on what it returns, errors included. *)
Theorem ranges_compose_without_controlnet
    (blocks : list (JointTransformerCacheBlock.t Tensor))
    (h : Tensor) (e : option Tensor) (temb : Tensor) (start mid stop : Z) :
  0 <= start -> start <= mid -> mid <= stop ->
  forward_blocks_range blocks h e None temb start stop
  = ('(h1, e1) <- forward_blocks_range blocks h e None temb start mid ;;
     forward_blocks_range blocks h1 e1 None temb mid stop).
Proof.
  intros Hs Hsm Hms. apply range_split_without_controlnet.
  apply slice_split_from; assumption.
Qed.

(** X2.  Without controlnet residuals, for any window with cache_start >= 0
    and window_length >= 0 (also one that overshoots the stack): if the
    CACHE_RECOMPUTE call returns, the NO_CACHE call on the same input
    returns the same state. *)
Theorem recompute_matches_full_run
    (blocks : list (JointTransformerCacheBlock.t Tensor))
    (hs : Tensor) (ehs : option Tensor) (temb : Tensor)
    (cache_params : option (list Z)) (c w : Z)
    (delta_cache delta_cache_hidden : option Tensor)
    (st : option Tensor * Tensor) (d dh : option Tensor) :
  subscript cache_params 0 = Ok c ->
  subscript cache_params 2 = Ok w ->
  0 <= c -> 0 <= w ->
  forward_blocks blocks hs ehs None temb true false cache_params
    delta_cache delta_cache_hidden = Ok (st, d, dh) ->
  forall (if_skip : bool) (any_params : option (list Z)),
    forward_blocks blocks hs ehs None temb false if_skip any_params
      delta_cache delta_cache_hidden
    = Ok (st, delta_cache, delta_cache_hidden).
Proof.
  intros H0 H2 Hc Hw Hrun if_skip any_params.
  apply recompute_run_inv in Hrun.
  destruct Hrun as [c' [w' [h1 [e1 [h2 [e2 [d' [dh' [h3 [e3 Hall]]]]]]]]]].
  destruct Hall as [Hc' [Hw' [Hpre [Hwin [_ [_ [Hpost Hout]]]]]]].
  rewrite H0 in Hc'. inversion Hc'; subst c'.
  rewrite H2 in Hw'. inversion Hw'; subst w'.
  inversion Hout; subst.
  unfold forward_blocks. cbn [negb].
  rewrite (range_split_without_controlnet blocks hs ehs temb 0 (c + w)
             (len blocks)) by (apply slice_split_end; lia).
  rewrite (range_split_without_controlnet blocks hs ehs temb 0 c (c + w))
    by (apply slice_split_from; lia).
  rewrite Hpre. simpl. rewrite Hwin. simpl. rewrite Hpost. reflexivity.
Qed.

End ExecutorComposition.

Section ExecutorEdges.
Context {Tensor : Type} `{TensorOps Tensor}.

(** The stack of [__init__] ends in its one context-pre-only block. *)
Lemma transformer_blocks_last (weights : Z -> Cells Tensor) (n : Z) :
  1 <= n ->
  exists bs b,
    transformer_blocks weights n = bs ++ [b] /\
    context_pre_only b = true /\
    len bs = n - 1 /\
    Forall (fun x => context_pre_only x = false) bs.
Proof.
  intros Hn. unfold transformer_blocks, range.
  replace (Z.to_nat n) with (S (Z.to_nat (n - 1))) by lia.
  rewrite seq_S, !map_app. simpl.
  eexists. eexists. split; [reflexivity|]. split; [|split].
  - simpl. apply Z.eqb_eq. lia.
  - unfold len. rewrite !length_map, length_seq. lia.
  - rewrite Forall_map, Forall_map. apply Forall_forall.
    intros x Hx. apply in_seq in Hx. simpl. apply Z.eqb_neq. lia.
Qed.

Lemma len_transformer_blocks (weights : Z -> Cells Tensor) (n : Z) :
  0 <= n -> len (transformer_blocks weights n) = n.
Proof.
  intros Hn. unfold len, transformer_blocks, range.
  rewrite !length_map, length_seq. lia.
Qed.

(** A pre-window range that covers a stack ending in a context-pre-only
    block leaves nothing to snapshot. *)
Lemma pre_window_over_terminal_raises
    (bs : list (JointTransformerCacheBlock.t Tensor))
    (b : JointTransformerCacheBlock.t Tensor)
    (hs : Tensor) (ehs : option Tensor) (ctrl : option (list Tensor))
    (temb : Tensor) (if_skip : bool) (cache_params : option (list Z)) (c : Z)
    (delta_cache delta_cache_hidden : option Tensor) :
  context_pre_only b = true ->
  subscript cache_params 0 = Ok c ->
  len (bs ++ [b]) <= c ->
  raises (forward_blocks (bs ++ [b]) hs ehs ctrl temb true if_skip
            cache_params delta_cache delta_cache_hidden).
Proof.
  intros Hlast H0 Hc. apply not_ok_raises. intros out Hrun.
  assert (Hpre : exists h1 e1,
             forward_blocks_range (bs ++ [b]) hs ehs ctrl temb 0 c
             = Ok (h1, Some e1)).
  { destruct if_skip.
    - apply skip_run_inv in Hrun.
      destruct Hrun as [c' [w [h1 [e1 [d [dh [h2 [e2 [h3 [e3 Hall]]]]]]]]]].
      destruct Hall as [Hc' [_ [Hpre _]]].
      rewrite H0 in Hc'. inversion Hc'; subst c'. eauto.
    - apply recompute_run_inv in Hrun.
      destruct Hrun as [c' [w [h1 [e1 [h2 [e2 [d [dh [h3 [e3 Hall]]]]]]]]]].
      destruct Hall as [Hc' [_ [Hpre _]]].
      rewrite H0 in Hc'. inversion Hc'; subst c'. eauto. }
  destruct Hpre as [h1 [e1 Hpre]]. unfold forward_blocks_range in Hpre.
  rewrite slice_clip, slice_whole in Hpre by lia.
  apply run_blocks_terminal in Hpre; [discriminate | exact Hlast].
Qed.

(** X3.  On a stack built by [__init__] with at least one layer, a window
    over every block but the last (cache_start 0, window_length
    num_layers - 1): if the CACHE_RECOMPUTE call returns, the NO_CACHE call
    returns the same state, with or without controlnet residuals. *)
Theorem recompute_before_terminal_block
    (weights : Z -> Cells Tensor) (num_layers : Z)
    (hs : Tensor) (ehs : option Tensor) (ctrl : option (list Tensor))
    (temb : Tensor) (cache_params : option (list Z))
    (delta_cache delta_cache_hidden : option Tensor)
    (st : option Tensor * Tensor) (d dh : option Tensor) :
  1 <= num_layers ->
  subscript cache_params 0 = Ok 0 ->
  subscript cache_params 2 = Ok (num_layers - 1) ->
  forward_blocks (transformer_blocks weights num_layers) hs ehs ctrl temb
    true false cache_params delta_cache delta_cache_hidden = Ok (st, d, dh) ->
  forall (if_skip : bool) (any_params : option (list Z)),
    forward_blocks (transformer_blocks weights num_layers) hs ehs ctrl temb
      false if_skip any_params delta_cache delta_cache_hidden
    = Ok (st, delta_cache, delta_cache_hidden).
Proof.
  intros Hn H0 H2 Hrun.
  destruct (transformer_blocks_last weights num_layers Hn)
    as [bs [b [Hstack [Hlast [Hlen _]]]]].
  rewrite Hstack in *. rewrite <- Hlen in H2.
  eapply recompute_up_to_terminal_block; eassumption.
Qed.

(** X4.  On a stack built by [__init__] with at least one layer, the full
    run hands back no auxiliary state, and the two deltas as they were
    passed. *)
Theorem full_run_drops_context
    (weights : Z -> Cells Tensor) (num_layers : Z)
    (hs : Tensor) (ehs : option Tensor) (ctrl : option (list Tensor))
    (temb : Tensor) (if_skip : bool) (cache_params : option (list Z))
    (delta_cache delta_cache_hidden : option Tensor)
    (e : option Tensor) (h : Tensor) (d dh : option Tensor) :
  1 <= num_layers ->
  forward_blocks (transformer_blocks weights num_layers) hs ehs ctrl temb
    false if_skip cache_params delta_cache delta_cache_hidden
  = Ok ((e, h), d, dh) ->
  e = None /\ d = delta_cache /\ dh = delta_cache_hidden.
Proof.
  intros Hn Hrun.
  destruct (transformer_blocks_last weights num_layers Hn)
    as [bs [b [Hstack [Hlast _]]]].
  unfold forward_blocks in Hrun. cbn [negb] in Hrun.
  apply bind_ok in Hrun as [[h' e'] [Hrange Hrun]].
  inversion Hrun; subst. unfold forward_blocks_range in Hrange.
  rewrite slice_whole, Hstack in Hrange.
  apply run_blocks_terminal in Hrange; [|exact Hlast].
  subst. repeat split.
Qed.

(** X5.  On a stack built by [__init__] with at least one layer, a call
    with use_cache set and cache_start >= num_layers raises, in skip and in
    recompute mode alike: the pre-window range runs the context-pre-only
    block and there is no auxiliary state left to snapshot. *)
Theorem cache_start_beyond_stack_raises
    (weights : Z -> Cells Tensor) (num_layers : Z)
    (hs : Tensor) (ehs : option Tensor) (ctrl : option (list Tensor))
    (temb : Tensor) (if_skip : bool) (cache_params : option (list Z)) (c : Z)
    (delta_cache delta_cache_hidden : option Tensor) :
  1 <= num_layers ->
  subscript cache_params 0 = Ok c ->
  num_layers <= c ->
  raises (forward_blocks (transformer_blocks weights num_layers) hs ehs ctrl
            temb true if_skip cache_params delta_cache delta_cache_hidden).
Proof.
  intros Hn H0 Hc.
  destruct (transformer_blocks_last weights num_layers Hn)
    as [bs [b [Hstack [Hlast _]]]].
  pose proof (len_transformer_blocks weights num_layers) as Hlen.
  rewrite Hstack in *.
  apply (pre_window_over_terminal_raises bs b hs ehs ctrl temb if_skip
           cache_params c); [exact Hlast | exact H0 | lia].
Qed.

(** X6.  On a stack built by [__init__] with at least one layer, a
    CACHE_RECOMPUTE call raises whenever the window reaches the last block:
    cache_start >= 0, window_length >= 0 and
    cache_start + window_length >= num_layers. *)
Theorem window_over_terminal_block_raises
    (weights : Z -> Cells Tensor) (num_layers : Z)
    (hs : Tensor) (ehs : option Tensor) (ctrl : option (list Tensor))
    (temb : Tensor) (cache_params : option (list Z)) (c w : Z)
    (delta_cache delta_cache_hidden : option Tensor) :
  1 <= num_layers ->
  subscript cache_params 0 = Ok c ->
  subscript cache_params 2 = Ok w ->
  0 <= c -> 0 <= w -> num_layers <= c + w ->
  raises (forward_blocks (transformer_blocks weights num_layers) hs ehs ctrl
            temb true false cache_params delta_cache delta_cache_hidden).
Proof.
  intros Hn H0 H2 Hc Hw Hreach.
  destruct (transformer_blocks_last weights num_layers Hn)
    as [bs [b [Hstack [Hlast [Hbs _]]]]].
  pose proof (len_transformer_blocks weights num_layers) as Hlen.
  rewrite Hstack in *.
  destruct (Z_le_gt_dec (len (bs ++ [b])) c) as [Hout|Hin].
  - apply (pre_window_over_terminal_raises bs b hs ehs ctrl temb false
             cache_params c); assumption.
  - apply not_ok_raises. intros out Hrun.
    apply recompute_run_inv in Hrun.
    destruct Hrun as [c' [w' [h1 [e1 [h2 [e2 [d [dh [h3 [e3 Hall]]]]]]]]]].
    destruct Hall as [Hc' [Hw' [_ [Hwin _]]]].
    rewrite H0 in Hc'. inversion Hc'; subst c'.
    rewrite H2 in Hw'. inversion Hw'; subst w'.
    unfold forward_blocks_range in Hwin.
    rewrite slice_clip in Hwin by lia.
    rewrite (slice_split_from (bs ++ [b]) c (len bs) (len (bs ++ [b])))
      in Hwin by lia.
    rewrite (proj2 (slice_all_but_last bs b)) in Hwin.
    apply run_blocks_terminal in Hwin; [discriminate | exact Hlast].
Qed.

End ExecutorEdges.

Section ExecutorCache.
Context {Tensor : Type} `{TensorOps Tensor}.

(** X7.  Record and replay.  Where tensor arithmetic is exact, that is
    where [b + (a - b)] gives back [a], a CACHE_SKIP call fed the deltas
    that a CACHE_RECOMPUTE call on the same input has just returned ends in
    the same state and hands the same deltas back. *)
Theorem skip_replays_recorded_delta
    (blocks : list (JointTransformerCacheBlock.t Tensor))
    (hs : Tensor) (ehs : option Tensor) (ctrl : option (list Tensor))
    (temb : Tensor) (cache_params : option (list Z))
    (delta_cache delta_cache_hidden : option Tensor)
    (st : option Tensor * Tensor) (d dh : option Tensor) :
  (forall a b x : Tensor, tsub a b = Ok x -> tadd b x = Ok a) ->
  forward_blocks blocks hs ehs ctrl temb true false cache_params
    delta_cache delta_cache_hidden = Ok (st, d, dh) ->
  forward_blocks blocks hs ehs ctrl temb true true cache_params d dh
  = Ok (st, d, dh).
Proof.
  intros Hexact Hrun.
  apply recompute_run_inv in Hrun.
  destruct Hrun as [c [w [h1 [e1 [h2 [e2 [d' [dh' [h3 [e3 Hall]]]]]]]]]].
  destruct Hall as [Hc [Hw [Hpre [_ [Hd [Hdh [Hpost Hout]]]]]]].
  inversion Hout; subst.
  unfold forward_blocks. cbn [negb].
  rewrite Hc. simpl. rewrite Hpre. simpl. rewrite Hw. simpl.
  rewrite (Hexact _ _ _ Hd). simpl. rewrite (Hexact _ _ _ Hdh). simpl.
  rewrite Hpost. reflexivity.
Qed.

(** X8.  A call with use_cache set returns only if cache_params is a
    sequence of at least three entries: [None] and shorter tuples raise. *)
Theorem cache_needs_three_params
    (blocks : list (JointTransformerCacheBlock.t Tensor))
    (hs : Tensor) (ehs : option Tensor) (ctrl : option (list Tensor))
    (temb : Tensor) (if_skip : bool) (cache_params : option (list Z))
    (delta_cache delta_cache_hidden : option Tensor) (out : outcome) :
  forward_blocks blocks hs ehs ctrl temb true if_skip cache_params
    delta_cache delta_cache_hidden = Ok out ->
  exists p, cache_params = Some p /\ 3 <= len p.
Proof.
  intros Hrun.
  assert (Hw : exists w, subscript cache_params 2 = Ok w).
  { destruct if_skip.
    - apply skip_run_inv in Hrun.
      destruct Hrun as [c [w [h1 [e1 [d [dh [h2 [e2 [h3 [e3 Hall]]]]]]]]]].
      destruct Hall as [_ [Hw _]]. eauto.
    - apply recompute_run_inv in Hrun.
      destruct Hrun as [c [w [h1 [e1 [h2 [e2 [d [dh [h3 [e3 Hall]]]]]]]]]].
      destruct Hall as [_ [Hw _]]. eauto. }
  destruct Hw as [w Hw]. destruct cache_params as [p|]; [|discriminate].
  exists p. split; [reflexivity|].
  unfold subscript, getitem in Hw. simpl in Hw.
  destruct (2 <? len p) eqn:E; [|discriminate]. lia.
Qed.

(** The blocks before a position and those behind a window do not depend
    on what the window holds. *)
Lemma slice_around_window {A : Type} (pre win win' post : list A) :
  length win = length win' ->
  slice (pre ++ win ++ post) 0 (len pre)
  = slice (pre ++ win' ++ post) 0 (len pre)
  /\
  slice (pre ++ win ++ post) (len pre + len win) (len (pre ++ win ++ post))
  = slice (pre ++ win' ++ post) (len pre + len win)
      (len (pre ++ win' ++ post)).
Proof.
  intros Hlen.
  assert (Hpre : forall rest : list A, slice (pre ++ rest) 0 (len pre) = pre).
  { intros rest. rewrite slice_from_zero by (unfold len; lia).
    rewrite Z.min_l by (unfold len; rewrite length_app; lia).
    unfold len. rewrite Nat2Z.id, firstn_app, firstn_all, Nat.sub_diag.
    simpl. apply app_nil_r. }
  assert (Hpost : forall mid : list A,
             length mid = length win ->
             slice (pre ++ mid ++ post) (len pre + len win)
               (len (pre ++ mid ++ post)) = post).
  { intros mid Hmid.
    rewrite slice_nonneg by (unfold len; lia).
    rewrite Z.min_id.
    rewrite Z.min_l by (unfold len; rewrite !length_app; lia).
    replace (Z.to_nat (len pre + len win))
      with (length (pre ++ mid))
      by (unfold len; rewrite length_app; lia).
    rewrite app_assoc, skipn_app, skipn_all, Nat.sub_diag. simpl.
    apply firstn_all2. unfold len. rewrite !length_app. lia. }
  split.
  - rewrite !Hpre. reflexivity.
  - rewrite (Hpost win eq_refl), (Hpost win' (eq_sym Hlen)). reflexivity.
Qed.

(** X9.  CACHE_SKIP never runs a block of the window: two stacks that
    differ only inside [cache_start, cache_start + window_length) give the
    same result in skip mode, whatever the inputs. *)
Theorem skip_never_runs_window
    (pre win win' post : list (JointTransformerCacheBlock.t Tensor))
    (hs : Tensor) (ehs : option Tensor) (ctrl : option (list Tensor))
    (temb : Tensor) (cache_params : option (list Z))
    (delta_cache delta_cache_hidden : option Tensor) :
  length win = length win' ->
  subscript cache_params 0 = Ok (len pre) ->
  subscript cache_params 2 = Ok (len win) ->
  forward_blocks (pre ++ win ++ post) hs ehs ctrl temb true true
    cache_params delta_cache delta_cache_hidden
  = forward_blocks (pre ++ win' ++ post) hs ehs ctrl temb true true
      cache_params delta_cache delta_cache_hidden.
Proof.
  intros Hlen H0 H2.
  destruct (slice_around_window pre win win' post Hlen) as [Hpre Hpost].
  assert (Hn : len (pre ++ win ++ post) = len (pre ++ win' ++ post))
    by (unfold len; rewrite !length_app; lia).
  unfold forward_blocks. cbn [negb]. rewrite H0. cbn [bind].
  unfold forward_blocks_range at 1 3. rewrite Hpre, Hn.
  destruct (run_blocks (len (pre ++ win' ++ post)) ctrl temb 0
              (slice (pre ++ win' ++ post) 0 (len pre)) hs ehs)
    as [[h1 e1]|err]; [|reflexivity].
  cbn [bind]. rewrite H2. cbn [bind py_copy].
  destruct e1 as [eb|]; [|reflexivity]. cbn [bind py_copy].
  destruct (py_add (Some h1) delta_cache) as [h2|err]; [|reflexivity].
  cbn [bind].
  destruct (py_add (Some eb) delta_cache_hidden) as [e2|err]; [|reflexivity].
  cbn [bind]. unfold forward_blocks_range. rewrite Hn in Hpost.
  rewrite Hpost, Hn. reflexivity.
Qed.

End ExecutorCache.

Section ControlnetResiduals.
Context {Tensor : Type} `{TensorOps Tensor}.

Lemma floordiv_ok (a b q : Z) :
  floordiv a b = Ok q -> b <> 0 /\ q = a / b.
Proof.
  unfold floordiv. destruct (b =? 0) eqn:E; [discriminate|].
  intros Hq. inversion Hq. apply Z.eqb_neq in E. auto.
Qed.

Lemma getitem_ok {A : Type} (l : list A) (i : Z) (x : A) :
  0 <= i -> getitem l i = Ok x -> i < len l.
Proof.
  intros Hi. unfold getitem. destruct (i <? 0) eqn:E; [lia|].
  destruct ((0 <=? i) && (i <? len l)) eqn:Ein; [|discriminate].
  intros _. apply andb_true_iff in Ein. lia.
Qed.

(** What a residual added after a block needs. *)
Lemma controlnet_residual_ok (n : Z) (residuals : list Tensor)
    (b : JointTransformerCacheBlock.t Tensor) (i : Z) (h h' : Tensor) :
  controlnet_residual n (Some residuals) b i h = Ok h' ->
  context_pre_only b = false -> 0 <= n -> 0 <= i ->
  1 <= len residuals <= n /\ i / (n / len residuals) < len residuals.
Proof.
  intros Hrun Hb Hn Hi. unfold controlnet_residual in Hrun.
  rewrite Hb in Hrun. simpl in Hrun.
  apply bind_ok in Hrun as [interval [Hinterval Hrun]].
  apply bind_ok in Hrun as [q [Hq Hrun]].
  apply bind_ok in Hrun as [r [Hr _]].
  apply floordiv_ok in Hinterval as [Hk ->].
  apply floordiv_ok in Hq as [Hinterval ->].
  assert (Hlen : 0 <= len residuals) by (unfold len; lia).
  assert (Hk1 : 1 <= len residuals) by lia.
  assert (Hpos : 0 <= n / len residuals) by (apply Z.div_pos; lia).
  assert (Hle : len residuals <= n).
  { destruct (Z_lt_le_dec n (len residuals)) as [Hsmall|]; [|assumption].
    rewrite Z.div_small in Hinterval by lia. contradiction. }
  apply getitem_ok in Hr; [|apply Z.div_pos; lia].
  lia.
Qed.

Lemma run_blocks_residuals (n : Z) (residuals : list Tensor) (temb : Tensor)
    (bs : list (JointTransformerCacheBlock.t Tensor)) :
  0 <= n ->
  forall (i : Z) (h : Tensor) (e : option Tensor) (out : state),
    0 <= i ->
    run_blocks n (Some residuals) temb i bs h e = Ok out ->
    forall (j : nat) (b : JointTransformerCacheBlock.t Tensor),
      nth_error bs j = Some b -> context_pre_only b = false ->
      1 <= len residuals <= n /\
      (i + Z.of_nat j) / (n / len residuals) < len residuals.
Proof.
  intros Hn. induction bs as [|b0 bs IH]; intros i h e out Hi Hrun j b Hj Hb.
  - destruct j; discriminate.
  - simpl in Hrun.
    apply bind_ok in Hrun as [[e1 h1] [_ Hrun]].
    apply bind_ok in Hrun as [h2 [Hres Hrun]].
    destruct j as [|j].
    + simpl in Hj. inversion Hj; subst b0. rewrite Z.add_0_r.
      eapply controlnet_residual_ok; eassumption.
    + simpl in Hj.
      replace (i + Z.of_nat (S j)) with (i + 1 + Z.of_nat j) by lia.
      eapply (IH (i + 1)); [lia | eassumption | eassumption | assumption].
Qed.

(** X10.  A range that returns with controlnet residuals supplied and has
    run a block that is not context-pre-only had between 1 and N residuals,
    N the number of blocks of the whole stack, and took for the block at
    position j of the range the residual j // (N // count), an index
    inside the list: an empty list, a list longer than the stack, or an
    index past the list raise instead. *)
Theorem residuals_fit_the_stack
    (blocks : list (JointTransformerCacheBlock.t Tensor))
    (h : Tensor) (e : option Tensor) (residuals : list Tensor)
    (temb : Tensor) (start_idx end_idx : Z) (out : state)
    (j : nat) (b : JointTransformerCacheBlock.t Tensor) :
  forward_blocks_range blocks h e (Some residuals) temb start_idx end_idx
    = Ok out ->
  nth_error (slice blocks start_idx end_idx) j = Some b ->
  context_pre_only b = false ->
  1 <= len residuals <= len blocks /\
  Z.of_nat j / (len blocks / len residuals) < len residuals.
Proof.
  intros Hrun Hj Hb. unfold forward_blocks_range in Hrun.
  apply (run_blocks_residuals (len blocks) residuals temb
           (slice blocks start_idx end_idx) ltac:(unfold len; lia)
           0 h e out ltac:(lia) Hrun j b Hj Hb).
Qed.

End ControlnetResiduals.

(** No residual, more residuals than blocks, and a bucket that falls past
    the list: six blocks and four residuals give bucket size 1, and block 4
    asks for residual 4. *)
Example residuals_empty :
  forward_blocks_range (stack 4) [0] (Some [0]) (Some []) [1] 0 4
  = Raise ZeroDivisionError.
Proof. reflexivity. Qed.

Example residuals_too_many :
  forward_blocks_range (stack 4) [0] (Some [0])
    (Some [[1]; [2]; [3]; [4]; [5]]) [1] 0 4
  = Raise ZeroDivisionError.
Proof. reflexivity. Qed.

Example residuals_index_error :
  forward_blocks_range (stack 6) [0] (Some [0])
    (Some [[1]; [2]; [3]; [4]]) [1] 0 6
  = Raise IndexError.
Proof. reflexivity. Qed.

(* ===================================================================== *)
(** ** The further executor properties on integer vectors *)
(* ===================================================================== *)

Lemma ranges_compose_without_controlnet_witness :
  forward_blocks_range (stack 4) [0] (Some [0]) None [1] 1 4
  = ('(h1, e1) <- forward_blocks_range (stack 4) [0] (Some [0]) None [1] 1 2 ;;
     forward_blocks_range (stack 4) h1 e1 None [1] 2 4).
Proof.
  refine (ranges_compose_without_controlnet (stack 4) [0] (Some [0]) [1]
            1 2 4 _ _ _); lia.
Defined.

(** A window [1, 6) that overshoots a three-block stack. *)
Lemma recompute_matches_full_run_witness :
  forward_blocks (open_stack 3) [0] (Some [0]) None [1] false true None
    None None
  = Ok ((Some [11], [11]), None, None).
Proof.
  refine (recompute_matches_full_run (open_stack 3) [0] (Some [0]) [1]
            (Some [1; 0; 5; 0]) 1 5 None None (Some [11], [11])
            (Some [10]) (Some [10]) _ _ _ _ _ true None);
    try reflexivity; lia.
Defined.

(** Four layers, residuals 10 and 20, window [0, 3): the run of C3 without
    the divergence. *)
Lemma recompute_before_terminal_block_witness :
  forward_blocks (stack 4) [0] (Some [0]) (Some [[10]; [20]]) [1]
    false false None None None
  = Ok ((None, [186]), None, None).
Proof.
  refine (recompute_before_terminal_block (fun i => affine_cells (i + 1)) 4
            [0] (Some [0]) (Some [[10]; [20]]) [1] (Some [0; 1; 3; 1])
            None None (None, [186]) (Some [91]) (Some [11]) _ _ _ _
            false None);
    try reflexivity; lia.
Defined.

(** The full run of the four-layer stack under the theorem. *)
Lemma full_run_drops_context_witness :
  forward_blocks (stack 4) [0] (Some [0]) None [1] false false None None None
  = Ok ((None, [26]), None, None)
  /\ (@None (list Z) = None /\ @None (list Z) = None /\ @None (list Z) = None).
Proof.
  split; [reflexivity|].
  refine (full_run_drops_context (fun i => affine_cells (i + 1)) 4
            [0] (Some [0]) None [1] false None None None None [26] None None
            _ _);
    [lia | reflexivity].
Defined.

Lemma cache_start_beyond_stack_raises_witness :
  raises (forward_blocks (stack 2) [0] (Some [0]) None [1] true true
            (Some [5; 1; 1; 1]) (Some [0]) (Some [0])).
Proof.
  refine (cache_start_beyond_stack_raises (fun i => affine_cells (i + 1)) 2
            [0] (Some [0]) None [1] true (Some [5; 1; 1; 1]) 5
            (Some [0]) (Some [0]) _ _ _);
    try reflexivity; lia.
Defined.

Lemma window_over_terminal_block_raises_witness :
  raises (forward_blocks (stack 4) [0] (Some [0]) None [1] true false
            (Some [2; 1; 2; 1]) None None).
Proof.
  refine (window_over_terminal_block_raises (fun i => affine_cells (i + 1)) 4
            [0] (Some [0]) None [1] (Some [2; 1; 2; 1]) 2 2 None None
            _ _ _ _ _ _);
    try reflexivity; lia.
Defined.

(** Integer vectors subtract and add back exactly. *)
Lemma vector_arithmetic_exact (a b x : list Z) :
  tsub a b = Ok x -> tadd b x = Ok a.
Proof.
  simpl. revert b x. induction a as [|u a IH]; intros b x Hsub.
  - destruct b; simpl in Hsub; inversion Hsub. reflexivity.
  - destruct b as [|v b]; simpl in Hsub; [discriminate|].
    apply bind_ok in Hsub as [r [Hr Hsub]]. inversion Hsub; subst x.
    simpl. rewrite (IH b r Hr). simpl. f_equal. f_equal. lia.
Qed.

Lemma skip_replays_recorded_delta_witness :
  forward_blocks (stack 4) [0] (Some [0]) None [1] true true
    (Some [1; 2; 1; 3]) (Some [3]) (Some [3])
  = Ok ((None, [26]), Some [3], Some [3]).
Proof.
  refine (skip_replays_recorded_delta (stack 4) [0] (Some [0]) None [1]
            (Some [1; 2; 1; 3]) None None (None, [26]) (Some [3]) (Some [3])
            vector_arithmetic_exact _).
  reflexivity.
Defined.

Lemma cache_needs_three_params_witness :
  exists p, Some [1; 2; 1; 3] = Some p /\ 3 <= len p.
Proof.
  refine (cache_needs_three_params (stack 4) [0] (Some [0]) None [1] false
            (Some [1; 2; 1; 3]) None None
            ((None, [26]), Some [3], Some [3]) _).
  reflexivity.
Defined.

(** Block 1 of the four-layer stack replaced by a block of weight 100. *)
Lemma skip_never_runs_window_witness :
  forward_blocks (firstn 1 (stack 4) ++ slice (stack 4) 1 2 ++ skipn 2 (stack 4))
    [0] (Some [0]) None [1] true true (Some [1; 2; 1; 3]) (Some [6]) (Some [6])
  = forward_blocks
      (firstn 1 (stack 4) ++ [init (affine_cells 100) false 1]
         ++ skipn 2 (stack 4))
      [0] (Some [0]) None [1] true true (Some [1; 2; 1; 3]) (Some [6])
      (Some [6]).
Proof.
  refine (skip_never_runs_window (firstn 1 (stack 4)) (slice (stack 4) 1 2)
            [init (affine_cells 100) false 1] (skipn 2 (stack 4))
            [0] (Some [0]) None [1] (Some [1; 2; 1; 3]) (Some [6]) (Some [6])
            _ _ _);
    reflexivity.
Defined.

Lemma residuals_fit_the_stack_witness :
  1 <= len [[10]; [20]] <= len (stack 4) /\
  Z.of_nat 2 / (len (stack 4) / len [[10]; [20]]) < len [[10]; [20]].
Proof.
  refine (residuals_fit_the_stack (stack 4) [0] (Some [0]) [[10]; [20]] [1]
            0 4 ([186], None) 2 (init (affine_cells 3) false 2) _ _ _);
    reflexivity.
Defined.

(* ===================================================================== *)
(** ** The model's forward method *)
(* ===================================================================== *)

Section ConstructFacts.
Context {Tensor : Type} `{TensorOps Tensor} `{Model.LayoutOps Tensor}
        {Any : Type}.

Lemma of_result_returns (m : result (Model.returned Tensor))
    (r : Model.returned Tensor) :
  Model.of_result m = Model.Returns r <-> m = Ok r.
Proof.
  destruct m as [v|e]; simpl; split; intros Hm; inversion Hm; reflexivity.
Qed.

(** What a returning [construct] went through. *)
Lemma construct_returns_inv (self : Model.t Tensor) (hidden_states : Tensor)
    (encoder_hidden_states pooled_projections timestep : option Tensor)
    (ctrl : option (list Tensor))
    (joint_attention_kwargs : option (list (String.string * Any)))
    (return_dict : bool) (cache_params : option (list Z)) (if_skip : bool)
    (delta_cache delta_cache_hidden : option Tensor) (use_cache : bool)
    (r : Model.returned Tensor) :
  Model.construct self hidden_states encoder_hidden_states pooled_projections
    timestep ctrl joint_attention_kwargs return_dict cache_params if_skip
    delta_cache delta_cache_hidden use_cache = Model.Returns r ->
  exists h e temb st d dh output,
    forward_blocks (Model.transformer_blocks self) h (Some e) ctrl temb
      use_cache if_skip cache_params delta_cache delta_cache_hidden
    = Ok (st, d, dh) /\
    r = (if negb return_dict
         then if use_cache then Model.OutputWithDeltas output d dh
              else Model.Output output
         else Model.Transformer2DModelOutput output).
Proof.
  unfold Model.construct. intros Hrun.
  destruct joint_attention_kwargs as [kwargs|];
    [destruct (Model.has_key kwargs _); [discriminate|]|];
    apply of_result_returns in Hrun;
    apply bind_ok in Hrun as [[height width] [_ Hrun]];
    apply bind_ok in Hrun as [h [_ Hrun]];
    apply bind_ok in Hrun as [temb [_ Hrun]];
    apply bind_ok in Hrun as [e [_ Hrun]];
    apply bind_ok in Hrun as [[[[e' h'] d] dh] [Hblocks Hrun]];
    apply bind_ok in Hrun as [h1 [_ Hrun]];
    apply bind_ok in Hrun as [h2 [_ Hrun]];
    apply bind_ok in Hrun as [output [_ Hrun]];
    exists h, e, temb, (e', h'), d, dh, output; (split; [exact Hblocks|]);
    destruct return_dict; simpl in Hrun |- *; inversion Hrun; reflexivity.
Qed.

(** X11.  What [construct] returns, when it returns.  With return_dict set
    it is a Transformer2DModelOutput holding the sample only, so the deltas
    are dropped even with use_cache set.  Without return_dict it is the
    1-tuple (output,) when use_cache is off and the 3-tuple
    (output, delta_cache, delta_cache_hidden) when it is on; both deltas of
    the 3-tuple are tensors, never [None], and in skip mode they are the
    deltas that were passed in. *)
Theorem construct_result_form (self : Model.t Tensor) (hidden_states : Tensor)
    (encoder_hidden_states pooled_projections timestep : option Tensor)
    (ctrl : option (list Tensor))
    (joint_attention_kwargs : option (list (String.string * Any)))
    (return_dict : bool) (cache_params : option (list Z)) (if_skip : bool)
    (delta_cache delta_cache_hidden : option Tensor) (use_cache : bool)
    (r : Model.returned Tensor) :
  Model.construct self hidden_states encoder_hidden_states pooled_projections
    timestep ctrl joint_attention_kwargs return_dict cache_params if_skip
    delta_cache delta_cache_hidden use_cache = Model.Returns r ->
  (return_dict = true ->
   exists sample, r = Model.Transformer2DModelOutput sample)
  /\
  (return_dict = false -> use_cache = false ->
   exists output, r = Model.Output output)
  /\
  (return_dict = false -> use_cache = true ->
   exists output d dh,
     r = Model.OutputWithDeltas output (Some d) (Some dh) /\
     (if_skip = true -> delta_cache = Some d /\ delta_cache_hidden = Some dh)).
Proof.
  intros Hrun. apply construct_returns_inv in Hrun.
  destruct Hrun as [h [e [temb [st [d [dh [output [Hblocks ->]]]]]]]].
  split; [|split].
  - intros ->. exists output. reflexivity.
  - intros -> ->. exists output. reflexivity.
  - intros -> ->. simpl. destruct if_skip.
    + apply skip_run_inv in Hblocks.
      destruct Hblocks
        as [c [w [h1 [e1 [x [xh [h2 [e2 [h3 [e3 Hall]]]]]]]]]].
      destruct Hall as [_ [_ [_ [Hd [Hdh [_ [_ [_ Hout]]]]]]]].
      inversion Hout; subst. exists output, x, xh. auto.
    + apply recompute_run_inv in Hblocks.
      destruct Hblocks
        as [c [w [h1 [e1 [h2 [e2 [x [xh [h3 [e3 Hall]]]]]]]]]].
      destruct Hall as [_ [_ [_ [_ [_ [_ [_ Hout]]]]]]].
      inversion Hout; subst. exists output, x, xh.
      split; [reflexivity | discriminate].
Qed.

(** X12.  In skip mode [construct] does not return without both deltas,
    whatever return_dict is and whatever the embedders do. *)
Theorem construct_skip_needs_deltas (self : Model.t Tensor)
    (hidden_states : Tensor)
    (encoder_hidden_states pooled_projections timestep : option Tensor)
    (ctrl : option (list Tensor))
    (joint_attention_kwargs : option (list (String.string * Any)))
    (return_dict : bool) (cache_params : option (list Z))
    (delta_cache delta_cache_hidden : option Tensor)
    (r : Model.returned Tensor) :
  Model.construct self hidden_states encoder_hidden_states pooled_projections
    timestep ctrl joint_attention_kwargs return_dict cache_params true
    delta_cache delta_cache_hidden true = Model.Returns r ->
  exists d dh, delta_cache = Some d /\ delta_cache_hidden = Some dh.
Proof.
  intros Hrun. apply construct_returns_inv in Hrun.
  destruct Hrun as [h [e [temb [st [d [dh [output [Hblocks _]]]]]]]].
  apply skip_run_inv in Hblocks.
  destruct Hblocks as [c [w [h1 [e1 [x [xh [h2 [e2 [h3 [e3 Hall]]]]]]]]]].
  destruct Hall as [_ [_ [_ [Hd [Hdh _]]]]]. eauto.
Qed.

End ConstructFacts.

(* ===================================================================== *)
(** ** The forward method on shapes *)
(* ===================================================================== *)

Import ShapeRun.

(** A batch of two 16-channel 8-by-8 latents, three context tokens, patches
    of side 2, three blocks of width 8, window [1, 2). *)
Example construct_recompute_run :
  Model.construct (Any := Z) (model 3 8 2 16) [2; 16; 8; 8]
    (Some [2; 3; 4096]) (Some [2; 2048]) (Some [2]) None None false
    (Some [1; 2; 1; 3]) false None None true
  = Model.Returns
      (Model.OutputWithDeltas [2; 16; 8; 8] (Some [2; 16; 8]) (Some [2; 3; 8])).
Proof. reflexivity. Qed.

Example construct_skip_run :
  Model.construct (Any := Z) (model 3 8 2 16) [2; 16; 8; 8]
    (Some [2; 3; 4096]) (Some [2; 2048]) (Some [2]) None None false
    (Some [1; 2; 1; 3]) true (Some [2; 16; 8]) (Some [2; 3; 8]) true
  = Model.Returns
      (Model.OutputWithDeltas [2; 16; 8; 8] (Some [2; 16; 8]) (Some [2; 3; 8])).
Proof. reflexivity. Qed.

Lemma construct_result_form_witness :
  exists output d dh,
    Model.OutputWithDeltas [2; 16; 8; 8] (Some [2; 16; 8]) (Some [2; 3; 8])
    = Model.OutputWithDeltas output (Some d) (Some dh) /\
    (true = true ->
     Some [2; 16; 8] = Some d /\ Some [2; 3; 8] = Some dh).
Proof.
  refine (proj2 (proj2
            (construct_result_form (Any := Z) (model 3 8 2 16) [2; 16; 8; 8]
               (Some [2; 3; 4096]) (Some [2; 2048]) (Some [2]) None None
               false (Some [1; 2; 1; 3]) true (Some [2; 16; 8])
               (Some [2; 3; 8]) true
               (Model.OutputWithDeltas [2; 16; 8; 8] (Some [2; 16; 8])
                  (Some [2; 3; 8])) _)) _ _);
    reflexivity.
Defined.

Lemma construct_skip_needs_deltas_witness :
  exists d dh, Some [2; 16; 8] = Some d /\ Some [2; 3; 8] = Some dh.
Proof.
  refine (construct_skip_needs_deltas (Any := Z) (model 3 8 2 16)
            [2; 16; 8; 8] (Some [2; 3; 4096]) (Some [2; 2048]) (Some [2])
            None None false (Some [1; 2; 1; 3]) (Some [2; 16; 8])
            (Some [2; 3; 8])
            (Model.OutputWithDeltas [2; 16; 8; 8] (Some [2; 16; 8])
               (Some [2; 3; 8])) _).
  reflexivity.
Defined.

(** X14.  Unpatchify on shapes.  For a (batch, tokens, features) tensor, a
    patch side p > 0 and height, width >= 0: the step returns exactly when
    tokens * features = (height // p) * (width // p) * (p * p * out_channels)
    and raises at its first reshape otherwise; the result has shape
    (batch, out_channels, (height // p) * p, (width // p) * p), which is
    (batch, out_channels, height, width) when p divides both sides. *)
Theorem unpatchify_shape (p oc b n d height width : Z) :
  0 < p -> 0 < oc -> 0 < b -> 0 <= n -> 0 <= d ->
  0 <= height -> 0 <= width ->
  Model.unpatchify p oc [b; n; d] height width
  = (if n * d =? (height / p) * (width / p) * (p * p * oc)
     then Ok [b; oc; height / p * p; width / p * p]
     else Raise ValueError)
  /\
  (height mod p = 0 -> width mod p = 0 ->
   [b; oc; height / p * p; width / p * p] = [b; oc; height; width]).
Proof.
  intros Hp Hoc Hb Hn Hd Hh Hw.
  assert (Hh' : 0 <= height / p) by (apply Z.div_pos; lia).
  assert (Hw' : 0 <= width / p) by (apply Z.div_pos; lia).
  split.
  - unfold Model.unpatchify, floordiv.
    destruct (p =? 0) eqn:Ep; [lia|]. simpl.
    rewrite reshape_plain
      by (repeat constructor; try assumption; lia).
    simpl numel.
    assert (Hsame :
      (b * (n * (d * 1))
       =? b * (height / p * (width / p * (p * (p * (oc * 1))))))
      = (n * d =? height / p * (width / p) * (p * p * oc))).
    { destruct (n * d =? height / p * (width / p) * (p * p * oc)) eqn:E.
      - apply Z.eqb_eq in E. apply Z.eqb_eq. nia.
      - apply Z.eqb_neq in E. apply Z.eqb_neq. nia. }
    rewrite Hsame.
    destruct (n * d =? height / p * (width / p) * (p * p * oc));
      [|reflexivity].
    simpl.
    rewrite reshape_plain
      by (repeat constructor; try assumption; try lia;
          apply Z.mul_nonneg_nonneg; lia).
    simpl numel.
    replace (b * (oc * (height / p * (p * (width / p * (p * 1))))) =?
             b * (oc * (height / p * p * (width / p * p * 1))))
      with true by (symmetry; apply Z.eqb_eq; ring).
    reflexivity.
  - intros Hhp Hwp.
    rewrite (Z.mul_comm (height / p)), (Z.mul_comm (width / p)).
    rewrite <- !Z_div_exact_full_2 by lia. reflexivity.
Qed.

Lemma unpatchify_shape_witness :
  Model.unpatchify 2 16 [2; 16; 64] 8 8 = Ok [2; 16; 8; 8].
Proof.
  refine (eq_trans
            (proj1 (unpatchify_shape 2 16 2 16 64 8 8 _ _ _ _ _ _ _)) _);
    try reflexivity; lia.
Defined.

(* ===================================================================== *)
(** ** Further properties of the attention processor *)
(* ===================================================================== *)

Lemma in_range (n h : Z) : 0 <= h < n -> In h (range n).
Proof.
  intros Hh. unfold range. apply in_map_iff. exists (Z.to_nat h).
  split; [lia|]. apply in_seq. lia.
Qed.

(** X15.  For every grid side h below 4096, [int(h / 2.2)] in binary64 is
    the exact quotient 5 * h // 11 or one less, and it is the exact quotient
    whenever 11 does not divide h. *)
Theorem merged_size_against_exact_quotient (h : Z) :
  0 <= h < 4096 ->
  exists k,
    Attention.merged_size h Attention.merge_factor = Ok k /\
    5 * h / 11 - 1 <= k <= 5 * h / 11 /\
    (h mod 11 <> 0 -> k = 5 * h / 11).
Proof.
  intros Hh.
  assert (Hall : forallb AttentionDims.merged_size_checked (range 4096) = true)
    by (vm_compute; reflexivity).
  rewrite forallb_forall in Hall. specialize (Hall h (in_range 4096 h Hh)).
  unfold AttentionDims.merged_size_checked in Hall.
  destruct (Attention.merged_size h Attention.merge_factor) as [k|e];
    [|discriminate].
  exists k. split; [reflexivity|].
  apply andb_true_iff in Hall as [Hbounds Hexact].
  apply andb_true_iff in Hbounds as [Hlo Hhi].
  split; [lia|]. intros Hmod.
  apply orb_true_iff in Hexact as [Hzero|Heq]; lia.
Qed.

Lemma merged_size_against_exact_quotient_witness :
  exists k,
    Attention.merged_size 33 Attention.merge_factor = Ok k /\
    5 * 33 / 11 - 1 <= k <= 5 * 33 / 11 /\
    (33 mod 11 <> 0 -> k = 5 * 33 / 11).
Proof.
  refine (merged_size_against_exact_quotient 33 _). lia.
Defined.

Section AttentionShapes.
Context `{K : Kernels}.
Import Attention AttentionDims.

(** X16.  With down-sampling on, a layer of index at most 11 rejects a
    primary state whose length is not a square: the processor raises on any
    (batch, n, channel) input with batch, channel >= 1 and n not the square
    of its integer root, whatever the context and the cell are. *)
Theorem call_rejects_non_square (attn : Attention.t) (b n d : Z)
    (encoder_hidden_states attention_mask : option shape) (layer_idx : Z) :
  kernels_contract K ->
  0 < b -> 0 <= n -> 0 < d ->
  layer_idx <= 11 ->
  n <> int_sqrt n * int_sqrt n ->
  raises (call attn [b; n; d] encoder_hidden_states attention_mask layer_idx
            true).
Proof.
  intros HK Hb Hn Hd Hlayer Hsq. apply not_ok_raises. intros out Hcall.
  unfold call in Hcall. simpl in Hcall.
  apply bind_ok in Hcall as [context [_ Hcall]].
  apply bind_ok in Hcall as [[context' chw] [_ Hcall]].
  apply bind_ok in Hcall as [batch_size [_ Hcall]].
  apply bind_ok in Hcall as [query [_ Hcall]].
  apply bind_ok in Hcall as [kv [Hkv _]].
  unfold key_value_states, downsample_applies in Hkv. simpl in Hkv.
  apply Z.leb_le in Hlayer. rewrite Hlayer in Hkv.
  apply (downsample_inv b n d merge_factor Bilinear kv HK) in Hkv;
    [|lia|lia|lia].
  destruct Hkv as [Hsquare _]. contradiction.
Qed.

(** X17.  Output shapes on 3-d inputs.  For a cell whose query projections
    go to [inner] channels and whose output projections go to [out]
    channels: whenever the processor returns on a (b, n, d) primary state
    and a (cb, m, cd) context, the two batches are equal, the primary output
    is (b, n, out), and the context output is (b, m, out), or (b, m, inner)
    in a context-pre-only cell, where to_add_out is skipped. *)
Theorem call_output_shapes (attn : Attention.t) (inner out : Z)
    (b n d cb m cd : Z) (attention_mask : option shape) (layer_idx : Z)
    (use_downsample : bool) (primary context : shape) :
  kernels_contract K -> cell_dims attn inner out ->
  0 <= n -> 0 <= m ->
  call attn [b; n; d] (Some [cb; m; cd]) attention_mask layer_idx
    use_downsample = Ok (primary, context) ->
  b = cb /\
  primary = [b; n; out] /\
  context = [b; m; if context_pre_only attn then inner else out].
Proof.
  intros HK Hattn Hn Hm Hcall.
  destruct HK as [_ Hflash].
  destruct Hattn as [Hq Hcq Ho0 Ho1 Hadd Hheads].
  unfold call in Hcall. simpl in Hcall.
  apply bind_ok in Hcall as [q [Eq Hcall]].
  apply bind_ok in Hcall as [kv [_ Hcall]].
  apply bind_ok in Hcall as [k [_ Hcall]].
  apply bind_ok in Hcall as [v [_ Hcall]].
  apply bind_ok in Hcall as [cq [Ecq Hcall]].
  apply bind_ok in Hcall as [ck [_ Hcall]].
  apply bind_ok in Hcall as [cv [_ Hcall]].
  apply bind_ok in Hcall as [q' [Ecat Hcall]].
  apply bind_ok in Hcall as [k' [_ Hcall]].
  apply bind_ok in Hcall as [v' [_ Hcall]].
  apply bind_ok in Hcall as [qh [Eqh Hcall]].
  apply bind_ok in Hcall as [kh [_ Hcall]].
  apply bind_ok in Hcall as [vh [_ Hcall]].
  apply bind_ok in Hcall as [a [Ea Hcall]].
  apply bind_ok in Hcall as [j [Ej Hcall]].
  apply bind_ok in Hcall as [p [Ep Hcall]].
  apply bind_ok in Hcall as [c [Ec Hcall]].
  apply bind_ok in Hcall as [p0 [Ep0 Hcall]].
  apply bind_ok in Hcall as [p1 [Ep1 Hcall]].
  apply bind_ok in Hcall as [c1 [Ec1 Hcall]].
  inversion Hcall; subst primary context. clear Hcall.
  apply Hq in Eq. subst q. apply Hcq in Ecq. subst cq.
  apply cat1_ok in Ecat as [a0 [a1 [b1 [r [Ha [Hb ->]]]]]].
  inversion Ha; subst. inversion Hb; subst.
  apply Hflash in Ea. subst a.
  apply (Hheads _ _ _ _ _ Eqh) in Ej. subst j.
  rewrite take1_prefix in Ep by assumption. inversion Ep; subst p.
  rewrite drop1_suffix in Ec by assumption. inversion Ec; subst c.
  apply Ho0 in Ep0. subst p0. apply Ho1 in Ep1. subst p1.
  split; [reflexivity|]. split; [reflexivity|].
  destruct (context_pre_only attn); simpl in Ec1.
  - inversion Ec1. reflexivity.
  - apply Hadd in Ec1. exact Ec1.
Qed.

End AttentionShapes.

Section AttentionFourD.
Context `{K : Kernels}.
Import Attention AttentionDims.

Lemma flatten_4d_ok (b c h w : Z) :
  0 <= b -> 0 <= c -> 0 <= h -> 0 <= w ->
  flatten_4d [b; c; h; w] = Ok ([b; h * w; c], (c, h, w)).
Proof.
  intros Hb Hc Hh Hw. unfold flatten_4d.
  rewrite reshape_plain
    by (repeat constructor; try assumption; apply Z.mul_nonneg_nonneg; lia).
  simpl numel.
  replace (b * (c * (h * (w * 1))) =? b * (c * (h * w * 1))) with true
    by (symmetry; apply Z.eqb_eq; ring).
  reflexivity.
Qed.

(** X18.  A 4-d primary state.  The processor flattens a
    (b, c, h, w) input to h * w positions but cuts the joint attention
    result at residual.shape[1], which for a 4-d input is the channel count
    c.  On a cell with [out] output channels and a 3-d context of m >= 1
    tokens, a returning call has restored a (b, c, h, w) tensor from
    out * min(c, h * w + m) entries a batch: with out = c this is possible
    only when h * w = c. *)
Theorem call_4d_cuts_at_channels (attn : Attention.t) (inner out : Z)
    (b c h w cb m cd : Z) (attention_mask : option shape) (layer_idx : Z)
    (use_downsample : bool) (primary context : shape) :
  kernels_contract K -> cell_dims attn inner out ->
  0 < b -> 0 < c -> 0 <= h -> 0 <= w -> 0 < m -> 0 <= out ->
  call attn [b; c; h; w] (Some [cb; m; cd]) attention_mask layer_idx
    use_downsample = Ok (primary, context) ->
  primary = [b; c; h; w] /\
  out * Z.min c (h * w + m) = c * (h * w) /\
  (out = c -> h * w = c).
Proof.
  intros HK Hattn Hb Hc Hh Hw Hm Hout Hcall.
  destruct HK as [_ Hflash].
  destruct Hattn as [Hq Hcq Ho0 Ho1 Hadd Hheads].
  assert (Hhw : 0 <= h * w) by (apply Z.mul_nonneg_nonneg; lia).
  unfold call in Hcall.
  change (ndim [b; c; h; w] =? 4) with true in Hcall.
  change (ndim [cb; m; cd] =? 4) with false in Hcall.
  cbv beta iota in Hcall.
  rewrite flatten_4d_ok in Hcall by lia. simpl in Hcall.
  apply bind_ok in Hcall as [q [Eq Hcall]].
  apply bind_ok in Hcall as [kv [_ Hcall]].
  apply bind_ok in Hcall as [k [_ Hcall]].
  apply bind_ok in Hcall as [v [_ Hcall]].
  apply bind_ok in Hcall as [cq [Ecq Hcall]].
  apply bind_ok in Hcall as [ck [_ Hcall]].
  apply bind_ok in Hcall as [cv [_ Hcall]].
  apply bind_ok in Hcall as [q' [Ecat Hcall]].
  apply bind_ok in Hcall as [k' [_ Hcall]].
  apply bind_ok in Hcall as [v' [_ Hcall]].
  apply bind_ok in Hcall as [qh [Eqh Hcall]].
  apply bind_ok in Hcall as [kh [_ Hcall]].
  apply bind_ok in Hcall as [vh [_ Hcall]].
  apply bind_ok in Hcall as [a [Ea Hcall]].
  apply bind_ok in Hcall as [j [Ej Hcall]].
  apply bind_ok in Hcall as [p [Ep Hcall]].
  apply bind_ok in Hcall as [x [Ex Hcall]].
  apply bind_ok in Hcall as [p0 [Ep0 Hcall]].
  apply bind_ok in Hcall as [p1 [Ep1 Hcall]].
  apply bind_ok in Hcall as [x1 [_ Hcall]].
  apply bind_ok in Hcall as [restored [Erestore Hcall]].
  inversion Hcall; subst primary context. clear Hcall.
  apply Hq in Eq. subst q. apply Hcq in Ecq. subst cq.
  apply cat1_ok in Ecat as [a0 [a1 [b1 [r [Ha [Hb' ->]]]]]].
  injection Ha as <- <- <-. injection Hb' as -> <-.
  apply Hflash in Ea. subst a.
  apply (Hheads _ _ _ _ _ Eqh) in Ej. subst j.
  unfold take1, slice_bound in Ep.
  destruct (c <? 0) eqn:Ec; [lia|].
  rewrite Z.max_r in Ep by lia. inversion Ep; subst p.
  apply Ho0 in Ep0. subst p0. apply Ho1 in Ep1. subst p1.
  simpl in Erestore.
  rewrite reshape_plain in Erestore by (repeat constructor; lia).
  simpl numel in Erestore.
  match type of Erestore with
  | (if ?test then _ else _) = _ => destruct test eqn:Esize; [|discriminate]
  end.
  inversion Erestore; subst restored. apply Z.eqb_eq in Esize.
  assert (Hcut : out * Z.min c (h * w + m) = c * (h * w)) by nia.
  split; [reflexivity|]. split; [exact Hcut|].
  intros ->. nia.
Qed.

End AttentionFourD.

(* ===================================================================== *)
(** ** The further attention properties on the concrete cell *)
(* ===================================================================== *)

Lemma dense_maps_last_axis (d_in d_out : Z) :
  AttentionDims.maps_last_axis (dense d_in d_out) d_out.
Proof.
  intros b n d s. unfold dense. simpl.
  destruct (d =? d_in); [|discriminate].
  intros Hs. inversion Hs. reflexivity.
Qed.

Lemma attention_cell_dims (dim heads : Z) (context_pre_only : bool)
    (layer_idx : Z) (use_todo : bool) :
  AttentionDims.cell_dims
    (attention dim heads context_pre_only layer_idx use_todo) dim dim.
Proof.
  split; simpl; try apply dense_maps_last_axis.
  - intros s s' Hs. inversion Hs. reflexivity.
  - intros b n d s s'. unfold head_to_batch_dim, batch_to_head_dim.
    destruct ((0 <? heads) && (d mod heads =? 0)) eqn:E1; [|discriminate].
    intros Hs. inversion Hs; subst s. clear Hs.
    destruct ((0 <? heads) && (b * heads mod heads =? 0)); [|discriminate].
    intros Hs. inversion Hs. clear Hs.
    apply andb_true_iff in E1 as [Hheads Hmod].
    apply Z.ltb_lt in Hheads. apply Z.eqb_eq in Hmod.
    rewrite Z.div_mul by lia.
    rewrite (Z.mul_comm (d / heads)), <- Z_div_exact_full_2 by lia.
    reflexivity.
Qed.

Lemma call_rejects_non_square_witness :
  raises (Attention.call (attention 8 2 false 0 true) [2; 17; 8]
            (Some [2; 3; 8]) None 11 true).
Proof.
  refine (call_rejects_non_square (attention 8 2 false 0 true) 2 17 8
            (Some [2; 3; 8]) None 11 kernels_contract_holds _ _ _ _ _);
    try lia.
  vm_compute. discriminate.
Defined.

Lemma call_output_shapes_witness :
  2 = 2 /\ [2; 16; 8] = [2; 16; 8] /\ [2; 3; 8] = [2; 3; 8].
Proof.
  refine (call_output_shapes (attention 8 2 false 0 true) 8 8
            2 16 8 2 3 8 None 0 true [2; 16; 8] [2; 3; 8]
            kernels_contract_holds (attention_cell_dims 8 2 false 0 true)
            _ _ _).
  - lia.
  - lia.
  - reflexivity.
Defined.

(** Eight channels on a 2-by-4 grid: the one 4-d layout that goes through
    with eight output channels. *)
Lemma call_4d_cuts_at_channels_witness :
  [2; 8; 2; 4] = [2; 8; 2; 4] /\
  8 * Z.min 8 (2 * 4 + 3) = 8 * (2 * 4) /\
  (8 = 8 -> 2 * 4 = 8).
Proof.
  refine (call_4d_cuts_at_channels (attention 8 2 false 0 true) 8 8
            2 8 2 4 2 3 8 None 0 false [2; 8; 2; 4] [2; 3; 8]
            kernels_contract_holds (attention_cell_dims 8 2 false 0 true)
            _ _ _ _ _ _ _);
    try lia.
  reflexivity.
Defined.

(** The same cell on a 4-by-4 grid of eight channels raises. *)
Example call_4d_raises :
  Attention.call (attention 8 2 false 0 true) [2; 8; 4; 4] (Some [2; 3; 8])
    None 0 false
  = Raise ValueError.
Proof. reflexivity. Qed.

(* ===================================================================== *)
(** ** The layer cutoff and the small grids on the concrete cell *)
(* ===================================================================== *)

(** Seventeen positions are no grid: down-sampled at layer 11 the call
    raises, left alone at layer 12 it returns. *)
Example call_at_the_cutoff :
  Attention.call (attention 8 2 false 0 true) [2; 17; 8] (Some [2; 3; 8])
    None 11 true
  = Raise ValueError
  /\
  Attention.call (attention 8 2 false 0 true) [2; 17; 8] (Some [2; 3; 8])
    None 12 true
  = Ok ([2; 17; 8], [2; 3; 8]).
Proof. split; reflexivity. Qed.

(** Sixteen positions at layer 11: the query keeps its 16 positions, keys
    and values are projected from the one merged position, and the kernel
    sees 16 + 3 query rows against 1 + 3 key and value rows. *)
Example kernel_inputs_when_downsampled :
  Attention.downsample [2; 16; 8] Attention.merge_factor Bilinear
  = Ok [2; 1; 8]
  /\
  Attention.attends_with (attention 8 2 false 0 true)
    [2; 16; 8] [2; 1; 8] [2; 3; 8] None
  /\
  head_to_batch_dim 2 [2; 16 + 3; 8] = Ok [4; 19; 4]
  /\
  head_to_batch_dim 2 [2; 1 + 3; 8] = Ok [4; 4; 4].
Proof.
  split; [reflexivity|]. split; [|split; reflexivity].
  exists [2; 16; 8], [2; 1; 8], [2; 1; 8], [2; 3; 8], [2; 3; 8], [2; 3; 8],
         [2; 19; 8], [2; 4; 8], [2; 4; 8], [4; 19; 4], [4; 4; 4], [4; 4; 4],
         [4; 19; 4].
  repeat split.
Qed.

(** A 2-by-2 grid merges to size 0, which the interpolation of this model
    rejects; an empty batch goes through to an empty result. *)
Example downsample_small_grid :
  Attention.merged_size 2 Attention.merge_factor = Ok 0
  /\
  Attention.downsample [1; 4; 3] Attention.merge_factor Bilinear
  = Raise ValueError
  /\
  Attention.downsample [0; 16; 8] Attention.merge_factor Bilinear
  = Ok [0; 0; 8].
Proof. repeat split. Qed.
